(** * Obrazek-01: the image editor's crop, overlay, request and export logic

    A shallow embedding of [src/App.tsx] and of the Gemini service module
    (the second document of [src/components/Spinner.tsx]).

    - JavaScript numbers are IEEE-754 binary64 values: Rocq's primitive
      [float], with [===] on numbers as [PrimFloat.eqb].
    - Strings are [string], holding the UTF-8 bytes of the JavaScript
      string; [null]/[undefined] are [None].
    - The DOM is outside the program.  What the code does to a canvas is
      recorded as the list of calls it makes, in order; what the browser
      answers (is there a 2D context, did the image load, what does
      [toDataURL] return) comes from an explicit environment.
    - React state is a record; a handler is a function on that record.
      A handler or effect that awaits is cut at its [await]: the part
      before it starts a call, which joins a list of pending calls, and
      the part after it runs in a later step, on the state of that
      step. *)

From Stdlib Require Import Floats ZArith String List Bool Ascii Lia.
Import ListNotations.

Local Open Scope string_scope.
Local Open Scope float_scope.
Local Open Scope list_scope.

(** ** JavaScript values *)

Module JS.

Definition number := float.

(** [a === b] on numbers: NaN differs from itself, [+0 === -0]. *)
Definition strict_eq (a b : number) : bool := PrimFloat.eqb a b.

(** [Math.min(a, b)]: NaN if either argument is NaN, and [-0] below [+0]. *)
Definition Math_min (a b : number) : number :=
  if is_nan a || is_nan b then nan
  else if (a <? b)%float then a
  else if (b <? a)%float then b
  else if is_zero a && get_sign a then a else b.

Definition Math_abs (a : number) : number := PrimFloat.abs a.

(** The literals [0.05] and [0.95] denote the nearest binary64 values. *)
Definition lit_0_05 : number := 0x1.999999999999ap-5.
Definition lit_0_95 : number := 0x1.e666666666666p-1.

(** Truthiness of a string: only the empty string is falsy. *)
Definition truthy (s : string) : bool :=
  match s with EmptyString => false | String _ _ => true end.

(** Truthiness of [string | null]. *)
Definition truthy_opt (o : option string) : bool :=
  match o with None => false | Some s => truthy s end.

(** [Object.is] on numbers, the comparison React applies to effect
    dependencies: NaN is itself, [+0] and [-0] differ. *)
Definition Object_is (a b : number) : bool := PrimFloat.Leibniz.eqb a b.

(** The line feed of a template literal's [\n]. *)
Definition LF : string := String (ascii_of_nat 10) EmptyString.

(** White space and line terminators as [String.prototype.trim] and
    [parseInt] strip them, on the UTF-8 bytes of the string.  One byte:
    TAB, LF, VT, FF, CR, SP. *)
Definition isWhiteSpace (c : ascii) : bool :=
  let n := nat_of_ascii c in
  Nat.eqb n 9 || Nat.eqb n 10 || Nat.eqb n 11 || Nat.eqb n 12
  || Nat.eqb n 13 || Nat.eqb n 32.

(** Two bytes: U+00A0 (C2 A0). *)
Definition isWhiteSpace2 (c1 c2 : ascii) : bool :=
  Nat.eqb (nat_of_ascii c1) 194 && Nat.eqb (nat_of_ascii c2) 160.

(** Three bytes: U+1680 (E1 9A 80), U+2000 to U+200A (E2 80 80..8A),
    U+2028, U+2029, U+202F (E2 80 A8, A9, AF), U+205F (E2 81 9F),
    U+3000 (E3 80 80) and U+FEFF (EF BB BF). *)
Definition isWhiteSpace3 (c1 c2 c3 : ascii) : bool :=
  let a := nat_of_ascii c1 in
  let b := nat_of_ascii c2 in
  let c := nat_of_ascii c3 in
  (Nat.eqb a 225 && Nat.eqb b 154 && Nat.eqb c 128)
  || (Nat.eqb a 226 && Nat.eqb b 128
      && ((Nat.leb 128 c && Nat.leb c 138)
          || Nat.eqb c 168 || Nat.eqb c 169 || Nat.eqb c 175))
  || (Nat.eqb a 226 && Nat.eqb b 129 && Nat.eqb c 159)
  || (Nat.eqb a 227 && Nat.eqb b 128 && Nat.eqb c 128)
  || (Nat.eqb a 239 && Nat.eqb b 187 && Nat.eqb c 191).

(** Empty or white space only. *)
Fixpoint blank (s : string) : bool :=
  match s with
  | EmptyString => true
  | String c1 rest1 =>
      if isWhiteSpace c1 then blank rest1
      else
        match rest1 with
        | EmptyString => false
        | String c2 rest2 =>
            if isWhiteSpace2 c1 c2 then blank rest2
            else
              match rest2 with
              | EmptyString => false
              | String c3 rest3 =>
                  if isWhiteSpace3 c1 c2 c3 then blank rest3 else false
              end
        end
  end.

Fixpoint trimStart (s : string) : string :=
  match s with
  | EmptyString => EmptyString
  | String c1 rest1 =>
      if isWhiteSpace c1 then trimStart rest1
      else
        match rest1 with
        | EmptyString => s
        | String c2 rest2 =>
            if isWhiteSpace2 c1 c2 then trimStart rest2
            else
              match rest2 with
              | EmptyString => s
              | String c3 rest3 =>
                  if isWhiteSpace3 c1 c2 c3 then trimStart rest3 else s
              end
        end
  end.

(** [trimEnd s]: [s] up to the point from which only white space
    follows. *)
Fixpoint trimEnd (s : string) : string :=
  match s with
  | EmptyString => EmptyString
  | String c rest => if blank s then EmptyString else String c (trimEnd rest)
  end.

Definition trim (s : string) : string := trimEnd (trimStart s).

(** [s.split(sep)] for a one-character separator. *)
Fixpoint split (sep : ascii) (s : string) : list string :=
  match s with
  | EmptyString => [EmptyString]
  | String c rest =>
      if Ascii.eqb c sep then EmptyString :: split sep rest
      else match split sep rest with
           | [] => [String c EmptyString]
           | piece :: pieces => String c piece :: pieces
           end
  end.

Definition startsWith (s prefix : string) : bool := String.prefix prefix s.

(** What a template literal gives for a value that is a string or
    [undefined]. *)
Definition templateText (v : option string) : string :=
  match v with Some s => s | None => "undefined" end.

(** The value of a decimal digit. *)
Definition digitValue (c : ascii) : option Z :=
  let n := nat_of_ascii c in
  if Nat.leb 48 n && Nat.leb n 57 then Some (Z.of_nat n - 48)%Z else None.

(** The integer spelled by the longest prefix of decimal digits, or
    [None] when the string does not begin with a digit. *)
Fixpoint leadingDigits (s : string) (sofar : option Z) : option Z :=
  match s with
  | EmptyString => sofar
  | String c rest =>
      match digitValue c with
      | Some d =>
          leadingDigits rest
            (Some (10 * match sofar with Some z => z | None => 0 end + d)%Z)
      | None => sofar
      end
  end.

(** The Number value of an integer: the nearest binary64, ties to even,
    infinite from 2^1024 on.  (Past twenty significant digits an engine
    may round the decimal numeral first; such numerals are taken
    exactly here.) *)
Definition numberOfInteger (z : Z) : number :=
  SF2Prim (binary_normalize prec emax z 0 false).

(** [parseInt(s, 10)]: leading white space is skipped, then an optional
    sign, then the decimal digits up to the first other character; NaN
    without a digit; [-0] for a negative zero. *)
Definition parseInt (s : string) : number :=
  let s := trimStart s in
  let '(negative, digits) :=
    match s with
    | String "-" rest => (true, rest)
    | String "+" rest => (false, rest)
    | _ => (false, s)
    end in
  match leadingDigits digits None with
  | None => nan
  | Some z =>
      if Z.eqb z 0 then (if negative then (-0) else 0)
      else numberOfInteger (if negative then (- z)%Z else z)
  end.

(** [n || fallback] on numbers: NaN and both zeros are falsy. *)
Definition orElse (n fallback : number) : number :=
  if is_nan n || is_zero n then fallback else n.

(** A promise: pending until the first [resolve] or [reject]; later
    calls change nothing. *)
Inductive promise (A E : Type) : Type :=
| Pending
| Resolved (value : A)
| Rejected (reason : E).
Arguments Pending {A E}.
Arguments Resolved {A E} value.
Arguments Rejected {A E} reason.

Definition resolve {A E} (value : A) (p : promise A E) : promise A E :=
  match p with Pending => Resolved value | _ => p end.

Definition reject {A E} (reason : E) (p : promise A E) : promise A E :=
  match p with Pending => Rejected reason | _ => p end.

End JS.

(** ** The canvas, as the sequence of calls made on it *)

Module Canvas.

(** An [HTMLImageElement] as the code reads it. *)
Record HTMLImageElement := mkImage {
  src : string;
  naturalWidth : JS.number;
  naturalHeight : JS.number;
  width : JS.number;
  height : JS.number
}.

Inductive op :=
| SetWidth (w : JS.number)
| SetHeight (h : JS.number)
| DrawImage (img : HTMLImageElement) (dx dy : JS.number)
| DrawImageRegion (img : HTMLImageElement)
    (sx sy sw sh dx dy dw dh : JS.number)
| SetFont (px : JS.number) (family : string)
| SetFillStyle (color : string)
| SetShadowColor (color : string)
| SetShadowBlur (b : JS.number)
| SetShadowOffsetX (o : JS.number)
| SetShadowOffsetY (o : JS.number)
| SetTextAlign (a : string)
| SetTextBaseline (b : string)
| FillRect (x y w h : JS.number)
| FillText (text : string) (x y : JS.number).

(** What the browser decides: whether [getContext('2d')] returns a
    context, the data URL [toDataURL(type, quality)] yields for a canvas
    that received the given calls, and for [new Image()] with [src] set,
    the loaded element ([onload]) or [None] ([onerror]). *)
Record browser := mkBrowser {
  getContext2d : bool;
  toDataURL : list op -> string -> option JS.number -> string;
  loadImage : string -> option HTMLImageElement
}.

End Canvas.

(** [type OriginalImage = { url: string; mimeType: string }] *)
Record OriginalImage := mkOriginal { url : string; mimeType : string }.

(** ** ImageCropper *)

Module Cropper.
Import JS Canvas.

(** A drag point [{ x, y }]. *)
Module Point.
Record t := mk { x : number; y : number }.
End Point.
Abbreviation point := Point.t.
Abbreviation mkPoint := Point.mk.

Record state := mkState {
  isCropping : bool;
  cropStart : point;
  cropEnd : point
}.

Definition initial : state :=
  mkState false (mkPoint 0 0) (mkPoint 0 0).

(** The crop rectangle [{ x, y, width, height }]. *)
Record rect := mkRect {
  x : number; y : number; width : number; height : number
}.

Definition getCropRect (st : state) : option rect :=
  if negb (isCropping st)
     && strict_eq (Point.x (cropStart st)) 0
     && strict_eq (Point.x (cropEnd st)) 0
  then None
  else
    let x := Math_min (Point.x (cropStart st)) (Point.x (cropEnd st)) in
    let y := Math_min (Point.y (cropStart st)) (Point.y (cropEnd st)) in
    let width := Math_abs (Point.x (cropStart st) - Point.x (cropEnd st)) in
    let height := Math_abs (Point.y (cropStart st) - Point.y (cropEnd st)) in
    if strict_eq width 0 || strict_eq height 0 then None
    else Some (mkRect x y width height).

(** A mouse event and the container's bounding rectangle
    ([None]: [containerRef.current] is null). *)
Record mouse := mkMouse { clientX : number; clientY : number }.
Record domrect := mkDomRect { left : number; top : number }.

Definition handleMouseDown (container : option domrect) (e : mouse)
    (st : state) : state :=
  match container with
  | None => st
  | Some rect =>
      let x := (clientX e - left rect) in
      let y := (clientY e - top rect) in
      mkState true (mkPoint x y) (mkPoint x y)
  end.

Definition handleMouseMove (container : option domrect) (e : mouse)
    (st : state) : state :=
  match isCropping st, container with
  | true, Some rect =>
      mkState (isCropping st) (cropStart st)
        (mkPoint (clientX e - left rect) (clientY e - top rect))
  | _, _ => st
  end.

Definition handleMouseUp (st : state) : state :=
  mkState false (cropStart st) (cropEnd st).

(** What one click on "Confirm Crop" does: the calls made on the fresh
    canvas, and the argument of [onCropComplete] if it is called. *)
Record confirmed := mkConfirmed {
  canvas : list op;
  onCropComplete : option OriginalImage
}.

Definition handleConfirmCrop (env : browser)
    (imgRef : option HTMLImageElement) (imageUrl : string)
    (st : state) : confirmed :=
  let fallback := mkConfirmed [] (Some (mkOriginal imageUrl "image/png")) in
  match imgRef, getCropRect st with
  | Some image, Some cropRect =>
      if strict_eq (width cropRect) 0 || strict_eq (height cropRect) 0
      then fallback
      else
        let scaleX := naturalWidth image / Canvas.width image in
        let scaleY := naturalHeight image / Canvas.height image in
        let sourceX := x cropRect * scaleX in
        let sourceY := y cropRect * scaleY in
        let sourceWidth := width cropRect * scaleX in
        let sourceHeight := height cropRect * scaleY in
        let sized := [SetWidth sourceWidth; SetHeight sourceHeight] in
        if negb (getContext2d env) then mkConfirmed sized None
        else
          let drawn := sized ++
            [DrawImageRegion image sourceX sourceY sourceWidth sourceHeight
               0 0 sourceWidth sourceHeight] in
          let croppedImageUrl := toDataURL env drawn "image/png" None in
          mkConfirmed drawn (Some (mkOriginal croppedImageUrl "image/png"))
  | _, _ => fallback
  end.

(** The rectangle spanned by two drag points, before the zero test. *)
Definition spanned (a b : point) : rect :=
  mkRect (Math_min (Point.x a) (Point.x b)) (Math_min (Point.y a) (Point.y b))
         (Math_abs (Point.x a - Point.x b)) (Math_abs (Point.y a - Point.y b)).

Definition degenerate (r : rect) : bool :=
  strict_eq (width r) 0 || strict_eq (height r) 0.

End Cropper.

(** ** fileToDataUrl *)

Module Ingest.
Import JS.

(** A [File]: the code reads its [type] only; its bytes reach the code
    through the reader. *)
Record File := mkFile { name : string; type : string }.

(** What a [FileReader] dispatches after [readAsDataURL]: [load] with
    [reader.result] set, [error], or an event the code has no handler
    for ([abort], [progress], [loadend]). *)
Inductive reader_event :=
| onload (result : string)
| onerror (error : string)
| unhandled.

Definition dispatch (file : File) (p : promise OriginalImage string)
    (ev : reader_event) : promise OriginalImage string :=
  match ev with
  | onload result => resolve (mkOriginal result (type file)) p
  | onerror error => reject error p
  | unhandled => p
  end.

Definition fileToDataUrl (file : File) (events : list reader_event)
    : promise OriginalImage string :=
  fold_left (dispatch file) events Pending.

(** The first event one of the two handlers reacts to. *)
Fixpoint first_handled (events : list reader_event) : reader_event :=
  match events with
  | [] => unhandled
  | unhandled :: rest => first_handled rest
  | ev :: _ => ev
  end.

End Ingest.

(** ** applyTextOverlay *)

Module Overlay.
Import JS Canvas.

Record options := mkOptions {
  fontFamily : string;
  fontSize : number;
  textColor : string;
  textPosition : string
}.

(** The calls made on the fresh canvas and the promise returned. *)
Record rendered := mkRendered {
  canvas : list op;
  settled : promise string string
}.

(** Where the switch on [options.textPosition] puts the text:
    [(textAlign, textBaseline, x, y)]. *)
Definition place (textPosition : string) (cw ch padding : number)
    : string * string * number * number :=
  if String.eqb textPosition "top-left" then
    ("left", "top", padding, padding)
  else if String.eqb textPosition "top-center" then
    ("center", "top", cw / 2, padding)
  else if String.eqb textPosition "top-right" then
    ("right", "top", cw - padding, padding)
  else if String.eqb textPosition "middle-left" then
    ("left", "middle", padding, ch / 2)
  else if String.eqb textPosition "middle-right" then
    ("right", "middle", cw - padding, ch / 2)
  else if String.eqb textPosition "bottom-left" then
    ("left", "bottom", padding, ch - padding)
  else if String.eqb textPosition "bottom-center" then
    ("center", "bottom", cw / 2, ch - padding)
  else if String.eqb textPosition "bottom-right" then
    ("right", "bottom", cw - padding, ch - padding)
  else
    ("center", "middle", cw / 2, ch / 2).

(** [canvas.width] and [canvas.height] read back what was just assigned:
    [img.width] and [img.height] are non-negative integers already. *)
Definition applyTextOverlay (env : browser) (base64Image text : string)
    (opts : options) : rendered :=
  match loadImage env base64Image with
  | None => mkRendered [] (Rejected "Failed to load image for text overlay.")
  | Some img =>
      let cw := width img in
      let ch := height img in
      let sized := [SetWidth cw; SetHeight ch] in
      if negb (getContext2d env)
      then mkRendered sized (Rejected "Could not get canvas context")
      else
        let padding := Math_min cw ch * lit_0_05 in
        let '(textAlign, textBaseline, x, y) :=
          place (textPosition opts) cw ch padding in
        let drawn := sized ++
          [DrawImage img 0 0;
           SetFont (fontSize opts) (fontFamily opts);
           SetFillStyle (textColor opts);
           SetShadowColor "rgba(0, 0, 0, 0.7)";
           SetShadowBlur 5;
           SetShadowOffsetX 2;
           SetShadowOffsetY 2;
           SetTextAlign textAlign;
           SetTextBaseline textBaseline;
           FillText text x y] in
        mkRendered drawn (Resolved (toDataURL env drawn "image/png" None))
  end.

(** The nine anchors: a row and a column. *)
Inductive row := Top | Middle | Bottom.
Inductive column := Left | Center | Right.

Definition anchor (r : row) (c : column) : string :=
  match r, c with
  | Top, Left => "top-left"
  | Top, Center => "top-center"
  | Top, Right => "top-right"
  | Middle, Left => "middle-left"
  | Middle, Center => "center"
  | Middle, Right => "middle-right"
  | Bottom, Left => "bottom-left"
  | Bottom, Center => "bottom-center"
  | Bottom, Right => "bottom-right"
  end.

Definition textPositions : list string :=
  ["top-left"; "top-center"; "top-right";
   "middle-left"; "center"; "middle-right";
   "bottom-left"; "bottom-center"; "bottom-right"].

Definition align_of (c : column) : string :=
  match c with Left => "left" | Center => "center" | Right => "right" end.

Definition baseline_of (r : row) : string :=
  match r with Top => "top" | Middle => "middle" | Bottom => "bottom" end.

Definition x_of (c : column) (w padding : number) : number :=
  match c with
  | Left => padding
  | Center => w / 2
  | Right => w - padding
  end.

Definition y_of (r : row) (h padding : number) : number :=
  match r with
  | Top => padding
  | Middle => h / 2
  | Bottom => h - padding
  end.

(** The whole sequence of calls for text drawn at [(x, y)]. *)
Definition overlay_calls (img : HTMLImageElement) (text : string)
    (opts : options) (textAlign textBaseline : string) (x y : number)
    : list op :=
  [SetWidth (width img); SetHeight (height img);
   DrawImage img 0 0;
   SetFont (fontSize opts) (fontFamily opts);
   SetFillStyle (textColor opts);
   SetShadowColor "rgba(0, 0, 0, 0.7)";
   SetShadowBlur 5;
   SetShadowOffsetX 2;
   SetShadowOffsetY 2;
   SetTextAlign textAlign;
   SetTextBaseline textBaseline;
   FillText text x y].

End Overlay.


(** ** The Gemini service module: editImageWithGemini *)

Module Gemini.
Import JS.

(** [ImageData]; [base64Data] is [url.split(',')[1]] at the call site,
    so it is [undefined] for a URL without a comma. *)
Record ImageData := mkImageData {
  base64Data : option string;
  mimeType : string
}.

(** [GeneratedImageData = { base64Data, mimeType }], filled from a
    response blob: [mimeType] has passed [startsWith], so it is a
    string; [base64Data] is the blob's [data], which may be
    [undefined]. *)
Record GeneratedImageData := mkGenerated {
  gBase64Data : option string;
  gMimeType : string
}.

(** A request [Part]. *)
Inductive Part :=
| inlineData (data : option string) (mimeType : string)
| text (t : string).

Record request := mkRequest {
  model : string;
  parts : list Part;
  responseModalities : list string
}.

(** The response as the SDK types it: every property is optional.
    A part has [inlineData] ([{ data?, mimeType? }]) and [text]; a
    candidate has [content]; a content has [parts]; the response has
    [candidates]. *)
Record Blob := mkBlob { bData : option string; bMimeType : option string }.
Record ResponsePart := mkResponsePart {
  rInlineData : option Blob;
  rText : option string
}.
Record Content := mkContent { cParts : option (list ResponsePart) }.
Record Candidate := mkCandidate { content : option Content }.
Record GenerateContentResponse := mkResponse {
  candidates : option (list Candidate)
}.

(** The property reads of [response.candidates[0].content.parts] and of
    [part.inlineData.mimeType.startsWith] that throw a [TypeError]
    when what they read from is [undefined]. *)
Inductive access :=
| index0_of_candidates
| content_of_first_candidate
| parts_of_content
| iteration_of_parts
| startsWith_of_mimeType.

(** A thrown value: an [Error] with its message, or anything else. *)
Inductive thrown :=
| ErrorObject (message : string)
| NotAnError.

(** The SDK and the engine: [new GoogleGenAI(...)] may throw,
    [generateContent] returns or throws, and a failed read throws a
    [TypeError] with the engine's message for that read. *)
Record service := mkService {
  construct : option thrown;
  generateContent : request -> thrown + GenerateContentResponse;
  typeErrorMessage : access -> string
}.

(** The request handed to the SDK, if the code got that far, and the
    promise returned; a rejection reason is the [message] of the
    [Error] rejected with. *)
Record call := mkCall {
  sent : option request;
  returned : promise GeneratedImageData string
}.

Definition noImageMessage : string :=
  "No image was generated. The model may not have been able to fulfill the request. Please try a different prompt.".

(** The [catch] block. *)
Definition caught (error : thrown) : promise GeneratedImageData string :=
  match error with
  | ErrorObject message => Rejected message
  | NotAnError =>
      Rejected "An unknown error occurred during image generation."
  end.

Definition aspectInstruction (aspectRatio : string) : string :=
  if String.eqb aspectRatio "16:9" || String.eqb aspectRatio "4:3"
  then (LF ++ LF ++ "Please generate the output image with a "
           ++ aspectRatio ++ " aspect ratio.")%string
  else (LF ++ LF
           ++ "Please preserve the aspect ratio of the first image.")%string.

(** The [parts] array after the last [push]. *)
Definition requestParts (originalImage : ImageData) (prompt : string)
    (backgroundImage : option ImageData) (aspectRatio : string)
    : list Part :=
  let parts :=
    [inlineData (base64Data originalImage) (mimeType originalImage)] in
  let parts :=
    match backgroundImage with
    | Some bg => parts ++ [inlineData (base64Data bg) (mimeType bg)]
    | None => parts
    end in
  let instruction := aspectInstruction aspectRatio in
  let finalPrompt := (prompt ++ instruction)%string in
  parts ++ [text finalPrompt].

(** The argument of [ai.models.generateContent]. *)
Definition requestFor (originalImage : ImageData) (prompt : string)
    (backgroundImage : option ImageData) (aspectRatio : string) : request :=
  mkRequest "gemini-2.5-flash-image"
    (requestParts originalImage prompt backgroundImage aspectRatio)
    ["IMAGE"].

(** A part the loop returns at: inline data whose MIME type starts
    with 'image/'. *)
Definition isImagePart (part : ResponsePart) : bool :=
  match rInlineData part with
  | Some blob =>
      match bMimeType blob with
      | Some mimeType => startsWith mimeType "image/"
      | None => false
      end
  | None => false
  end.

(** A part the loop goes past: no inline data, or inline data whose
    MIME type does not start with 'image/'. *)
Definition isPassedOver (part : ResponsePart) : bool :=
  match rInlineData part with
  | Some blob =>
      match bMimeType blob with
      | Some mimeType => negb (startsWith mimeType "image/")
      | None => false
      end
  | None => true
  end.

(** How the [for] loop over the parts ends. *)
Inductive scanned :=
| Found (image : GeneratedImageData)
| NoImage
| Threw (read : access).

Fixpoint firstImage (ps : list ResponsePart) : scanned :=
  match ps with
  | [] => NoImage
  | part :: rest =>
      match rInlineData part with
      | Some blob =>
          match bMimeType blob with
          | Some mimeType =>
              if startsWith mimeType "image/"
              then Found (mkGenerated (bData blob) mimeType)
              else firstImage rest
          | None => Threw startsWith_of_mimeType
          end
      | None => firstImage rest
      end
  end.

(** [response.candidates[0].content.parts], or the read that throws. *)
Definition firstCandidateParts (response : GenerateContentResponse)
    : access + list ResponsePart :=
  match candidates response with
  | None => inl index0_of_candidates
  | Some [] => inl content_of_first_candidate
  | Some (first :: _) =>
      match content first with
      | None => inl parts_of_content
      | Some c =>
          match cParts c with
          | None => inl iteration_of_parts
          | Some ps => inr ps
          end
      end
  end.

(** The responses on which a read of line 70 or 71 fails, and the
    read that does: no [candidates], no first candidate, a first
    candidate without [content], a content without [parts], or, in the
    loop, inline data without a [mimeType] before any image part. *)
Inductive failsAt : GenerateContentResponse -> access -> Prop :=
| no_candidates : failsAt (mkResponse None) index0_of_candidates
| no_first_candidate :
    failsAt (mkResponse (Some [])) content_of_first_candidate
| no_content others :
    failsAt (mkResponse (Some (mkCandidate None :: others)))
      parts_of_content
| no_parts others :
    failsAt (mkResponse (Some (mkCandidate (Some (mkContent None))
                               :: others)))
      iteration_of_parts
| no_mimeType skipped part blob rest others :
    (forall p, In p skipped -> isPassedOver p = true) ->
    rInlineData part = Some blob ->
    bMimeType blob = None ->
    failsAt (mkResponse
               (Some (mkCandidate
                        (Some (mkContent (Some (skipped ++ part :: rest))))
                      :: others)))
      startsWith_of_mimeType.

(** [aspectRatio] is optional and defaults to ['original']. *)
Definition editImageWithGemini (svc : service) (originalImage : ImageData)
    (prompt : string) (backgroundImage : option ImageData)
    (aspectRatio : option string) : call :=
  let aspectRatio :=
    match aspectRatio with Some a => a | None => "original" end in
  let typeError (read : access) :=
    caught (ErrorObject (typeErrorMessage svc read)) in
  match construct svc with
  | Some error => mkCall None (caught error)
  | None =>
      let req :=
        requestFor originalImage prompt backgroundImage aspectRatio in
      match generateContent svc req with
      | inl error => mkCall (Some req) (caught error)
      | inr response =>
          match firstCandidateParts response with
          | inl read => mkCall (Some req) (typeError read)
          | inr ps =>
              match firstImage ps with
              | Found image => mkCall (Some req) (Resolved image)
              | Threw read => mkCall (Some req) (typeError read)
              | NoImage =>
                  mkCall (Some req) (caught (ErrorObject noImageMessage))
              end
          end
      end
  end.

End Gemini.


(** ** App: the component state and its handlers *)

Module App.
Import JS Canvas.

(** The [useState] cells of [App]. *)
Record state := mkApp {
  uncroppedImage : option string;
  originalImage : option OriginalImage;
  backgroundImage : option OriginalImage;
  imageBeforeText : option string;
  editedImage : option string;
  prompt : string;
  isLoading : bool;
  error : option string;
  textOverlay : string;
  fontFamily : string;
  fontSize : number;
  textColor : string;
  textPosition : string;
  isTextToolsVisible : bool;
  outputFormat : string;
  aspectRatio : string
}.

(** The state setters; each replaces one cell. *)
Definition setUncroppedImage (v : option string) (s : state) : state :=
  mkApp v (originalImage s) (backgroundImage s) (imageBeforeText s)
    (editedImage s) (prompt s) (isLoading s) (error s) (textOverlay s)
    (fontFamily s) (fontSize s) (textColor s) (textPosition s)
    (isTextToolsVisible s) (outputFormat s) (aspectRatio s).

Definition setOriginalImage (v : option OriginalImage) (s : state) : state :=
  mkApp (uncroppedImage s) v (backgroundImage s) (imageBeforeText s)
    (editedImage s) (prompt s) (isLoading s) (error s) (textOverlay s)
    (fontFamily s) (fontSize s) (textColor s) (textPosition s)
    (isTextToolsVisible s) (outputFormat s) (aspectRatio s).

Definition setBackgroundImage (v : option OriginalImage) (s : state) : state :=
  mkApp (uncroppedImage s) (originalImage s) v (imageBeforeText s)
    (editedImage s) (prompt s) (isLoading s) (error s) (textOverlay s)
    (fontFamily s) (fontSize s) (textColor s) (textPosition s)
    (isTextToolsVisible s) (outputFormat s) (aspectRatio s).

Definition setImageBeforeText (v : option string) (s : state) : state :=
  mkApp (uncroppedImage s) (originalImage s) (backgroundImage s) v
    (editedImage s) (prompt s) (isLoading s) (error s) (textOverlay s)
    (fontFamily s) (fontSize s) (textColor s) (textPosition s)
    (isTextToolsVisible s) (outputFormat s) (aspectRatio s).

Definition setEditedImage (v : option string) (s : state) : state :=
  mkApp (uncroppedImage s) (originalImage s) (backgroundImage s)
    (imageBeforeText s) v (prompt s) (isLoading s) (error s) (textOverlay s)
    (fontFamily s) (fontSize s) (textColor s) (textPosition s)
    (isTextToolsVisible s) (outputFormat s) (aspectRatio s).

Definition setPrompt (v : string) (s : state) : state :=
  mkApp (uncroppedImage s) (originalImage s) (backgroundImage s)
    (imageBeforeText s) (editedImage s) v (isLoading s) (error s)
    (textOverlay s) (fontFamily s) (fontSize s) (textColor s)
    (textPosition s) (isTextToolsVisible s) (outputFormat s) (aspectRatio s).

Definition setIsLoading (v : bool) (s : state) : state :=
  mkApp (uncroppedImage s) (originalImage s) (backgroundImage s)
    (imageBeforeText s) (editedImage s) (prompt s) v (error s)
    (textOverlay s) (fontFamily s) (fontSize s) (textColor s)
    (textPosition s) (isTextToolsVisible s) (outputFormat s) (aspectRatio s).

Definition setError (v : option string) (s : state) : state :=
  mkApp (uncroppedImage s) (originalImage s) (backgroundImage s)
    (imageBeforeText s) (editedImage s) (prompt s) (isLoading s) v
    (textOverlay s) (fontFamily s) (fontSize s) (textColor s)
    (textPosition s) (isTextToolsVisible s) (outputFormat s) (aspectRatio s).

Definition setTextOverlay (v : string) (s : state) : state :=
  mkApp (uncroppedImage s) (originalImage s) (backgroundImage s)
    (imageBeforeText s) (editedImage s) (prompt s) (isLoading s) (error s) v
    (fontFamily s) (fontSize s) (textColor s) (textPosition s)
    (isTextToolsVisible s) (outputFormat s) (aspectRatio s).

Definition setFontFamily (v : string) (s : state) : state :=
  mkApp (uncroppedImage s) (originalImage s) (backgroundImage s)
    (imageBeforeText s) (editedImage s) (prompt s) (isLoading s) (error s)
    (textOverlay s) v (fontSize s) (textColor s) (textPosition s)
    (isTextToolsVisible s) (outputFormat s) (aspectRatio s).

Definition setFontSize (v : number) (s : state) : state :=
  mkApp (uncroppedImage s) (originalImage s) (backgroundImage s)
    (imageBeforeText s) (editedImage s) (prompt s) (isLoading s) (error s)
    (textOverlay s) (fontFamily s) v (textColor s) (textPosition s)
    (isTextToolsVisible s) (outputFormat s) (aspectRatio s).

Definition setTextColor (v : string) (s : state) : state :=
  mkApp (uncroppedImage s) (originalImage s) (backgroundImage s)
    (imageBeforeText s) (editedImage s) (prompt s) (isLoading s) (error s)
    (textOverlay s) (fontFamily s) (fontSize s) v (textPosition s)
    (isTextToolsVisible s) (outputFormat s) (aspectRatio s).

Definition setTextPosition (v : string) (s : state) : state :=
  mkApp (uncroppedImage s) (originalImage s) (backgroundImage s)
    (imageBeforeText s) (editedImage s) (prompt s) (isLoading s) (error s)
    (textOverlay s) (fontFamily s) (fontSize s) (textColor s) v
    (isTextToolsVisible s) (outputFormat s) (aspectRatio s).

Definition setIsTextToolsVisible (v : bool) (s : state) : state :=
  mkApp (uncroppedImage s) (originalImage s) (backgroundImage s)
    (imageBeforeText s) (editedImage s) (prompt s) (isLoading s) (error s)
    (textOverlay s) (fontFamily s) (fontSize s) (textColor s)
    (textPosition s) v (outputFormat s) (aspectRatio s).

Definition setOutputFormat (v : string) (s : state) : state :=
  mkApp (uncroppedImage s) (originalImage s) (backgroundImage s)
    (imageBeforeText s) (editedImage s) (prompt s) (isLoading s) (error s)
    (textOverlay s) (fontFamily s) (fontSize s) (textColor s)
    (textPosition s) (isTextToolsVisible s) v (aspectRatio s).

Definition setAspectRatio (v : string) (s : state) : state :=
  mkApp (uncroppedImage s) (originalImage s) (backgroundImage s)
    (imageBeforeText s) (editedImage s) (prompt s) (isLoading s) (error s)
    (textOverlay s) (fontFamily s) (fontSize s) (textColor s)
    (textPosition s) (isTextToolsVisible s) (outputFormat s) v.

(** Statements in source order: [s |> f |> g] runs [f], then [g]. *)
Notation "s |> f" := (f s) (at level 45, left associativity, only parsing).

Definition initial : state :=
  mkApp None None None None None "" false None
        "" "Arial" 48 "#ffffff" "center" false "png" "original".

Definition resetEditorState (s : state) : state :=
  s |> setEditedImage None
    |> setImageBeforeText None
    |> setError None
    |> setPrompt ""
    |> setTextOverlay ""
    |> setIsTextToolsVisible false
    |> setOutputFormat "png"
    |> setAspectRatio "original"
    |> setTextPosition "center".

(** [file] is [event.target.files?.[0]]; [events] is what the reader
    dispatches for it.  The handler writes nothing before its [await],
    so [s] is the state at the time the reader's promise settles. *)
Definition handleFileChange (file : option Ingest.File)
    (events : list Ingest.reader_event) (s : state) : state :=
  match file with
  | None => s
  | Some file =>
      match Ingest.fileToDataUrl file events with
      | Resolved imageData =>
          s |> setUncroppedImage (Some (url imageData))
            |> setOriginalImage None
            |> resetEditorState
      | Rejected _ =>
          s |> setError
                 (Some "Failed to load image. Please try another file.")
      | Pending => s
      end
  end.

Definition handleCropComplete (croppedImage : OriginalImage) (s : state)
    : state :=
  s |> setOriginalImage (Some croppedImage)
    |> setUncroppedImage None.

Definition handleCropCancel (s : state) : state :=
  s |> setUncroppedImage None.

Definition backgroundPrompt : string :=
  "Replace the background of the first image with the second image.".

Definition handleBackgroundFileChange (file : option Ingest.File)
    (events : list Ingest.reader_event) (s : state) : state :=
  match file with
  | None => s
  | Some file =>
      match Ingest.fileToDataUrl file events with
      | Resolved imageData =>
          s |> setBackgroundImage (Some imageData)
            |> setPrompt backgroundPrompt
      | Rejected _ =>
          s |> setError
                 (Some
                   "Failed to load background image. Please try another file.")
      | Pending => s
      end
  end.

Definition removeBackgroundImage (s : state) : state :=
  let s' := s |> setBackgroundImage None in
  if String.eqb (prompt s) backgroundPrompt
  then s' |> setPrompt ""
  else s'.

(** [{ base64Data: image.url.split(',')[1], mimeType: image.mimeType }] *)
Definition payload (image : OriginalImage) : Gemini.ImageData :=
  Gemini.mkImageData (nth_error (split "," (url image)) 1) (mimeType image).

(** The arguments of one call of [editImageWithGemini]. *)
Record invocation := mkInvocation {
  originalImagePayload : Gemini.ImageData;
  argPrompt : string;
  backgroundImagePayload : option Gemini.ImageData;
  argAspectRatio : string
}.

Definition invoke (svc : Gemini.service) (i : invocation) : Gemini.call :=
  Gemini.editImageWithGemini svc (originalImagePayload i) (argPrompt i)
    (backgroundImagePayload i) (Some (argAspectRatio i)).

(** [handleGenerate] up to its [await]: the new state, and the call
    started if there is one. *)
Definition handleGenerate_begin (s : state) : state * option invocation :=
  match truthy (prompt s), originalImage s with
  | true, Some originalImage =>
      (s |> setIsLoading true
         |> setError None
         |> setEditedImage None
         |> setImageBeforeText None,
       Some (mkInvocation (payload originalImage) (prompt s)
               (option_map payload (backgroundImage s)) (aspectRatio s)))
  | _, _ =>
      (s |> setError
              (Some "Please enter a prompt and upload an image first."),
       None)
  end.

(** [handleGenerate] after its [await], on the state of that moment:
    the rest of [try], or [catch], and then [finally].  The rejection
    reason is the message of the [Error] the service module rejects
    with. *)
Definition handleGenerate_resume
    (outcome : promise Gemini.GeneratedImageData string) (s : state)
    : state :=
  match outcome with
  | Resolved generatedImage =>
      let generatedImageWithDataUrl :=
        ("data:" ++ Gemini.gMimeType generatedImage ++ ";base64,"
           ++ templateText (Gemini.gBase64Data generatedImage))%string in
      s |> setImageBeforeText (Some generatedImageWithDataUrl)
        |> setIsLoading false
  | Rejected errorMessage =>
      s |> setError (Some ("Generation failed: " ++ errorMessage)%string)
        |> setIsLoading false
  | Pending => s
  end.

(** One uninterrupted run of [handleGenerate] against a service. *)
Definition handleGenerate (svc : Gemini.service) (s : state)
    : state * option Gemini.call :=
  match handleGenerate_begin s with
  | (s1, Some i) =>
      let c := invoke svc i in
      (handleGenerate_resume (Gemini.returned c) s1, Some c)
  | (s1, None) => (s1, None)
  end.

Definition overlayOptions (s : state) : Overlay.options :=
  Overlay.mkOptions (fontFamily s) (fontSize s) (textColor s)
    (textPosition s).

(** The arguments of one call of [applyTextOverlay]. *)
Record overlayJob := mkJob {
  jobImage : string;
  jobText : string;
  jobOptions : Overlay.options
}.

(** What the call settles with in a given browser. *)
Definition render (env : browser) (job : overlayJob)
    : promise string string :=
  Overlay.settled
    (Overlay.applyTextOverlay env (jobImage job) (jobText job)
       (jobOptions job)).

(** The body of the text-overlay effect, [applyText], up to its
    [await]: the new state, and the rendering started if there is
    one. *)
Definition applyText_begin (s : state) : state * option overlayJob :=
  match imageBeforeText s with
  | Some image =>
      if negb (truthy image) then (s |> setEditedImage None, None)
      else if truthy (trim (textOverlay s)) then
        (s, Some (mkJob image (textOverlay s)
                    (Overlay.mkOptions (fontFamily s) (fontSize s)
                       (textColor s) (textPosition s))))
      else (s |> setEditedImage (imageBeforeText s), None)
  | None => (s |> setEditedImage None, None)
  end.

(** [applyText] after its [await], on the state of that moment: the
    rest of [try], or [catch].  The effect returns no cleanup, so this
    runs whatever has happened in between. *)
Definition applyText_resume (outcome : promise string string) (s : state)
    : state :=
  match outcome with
  | Resolved finalImage => s |> setEditedImage (Some finalImage)
  | Rejected _ => s |> setError (Some "Failed to apply text overlay.")
  | Pending => s
  end.

(** One uninterrupted run of [applyText]. *)
Definition applyText (env : browser) (s : state) : state :=
  match applyText_begin s with
  | (s1, Some job) => applyText_resume (render env job) s1
  | (s1, None) => s1
  end.

(** The overlay rendering of a pre-text image under the state's overlay
    text and settings. *)
Definition overlayRendering (env : browser) (s : state) (image : string)
    : promise string string :=
  Overlay.settled
    (Overlay.applyTextOverlay env image (textOverlay s) (overlayOptions s)).

(** The displayed edited image once the effect has settled, as the
    specification words it: null without a pre-text image; the pre-text
    image itself under empty or white-space-only overlay text; and
    otherwise the overlay rendering of the pre-text image. *)
Definition displaysAsSpecified (env : browser) (s settled : state) : Prop :=
  (truthy_opt (imageBeforeText s) = false -> editedImage settled = None)
  /\ (forall image,
        imageBeforeText s = Some image -> truthy image = true ->
        blank (textOverlay s) = true ->
        editedImage settled = Some image)
  /\ (forall image,
        imageBeforeText s = Some image -> truthy image = true ->
        blank (textOverlay s) = false ->
        exists rendering,
          overlayRendering env s image = Resolved rendering
          /\ editedImage settled = Some rendering).

(** What a click on Download leaves behind: the calls on the canvas,
    the anchor clicked ([href], [download]) and the state. *)
Record downloaded := mkDownloaded {
  canvas : list op;
  anchor : option (string * string);
  after : state
}.

(** [img.onerror] of the download. *)
Definition handleDownload_onerror (s : state) : state :=
  s |> setError (Some "Failed to process image for download.").

Definition handleDownload (env : browser) (s : state) : downloaded :=
  match editedImage s with
  | None => mkDownloaded [] None s
  | Some edited =>
      if negb (truthy edited) then mkDownloaded [] None s
      else
        let mimeType := ("image/" ++ outputFormat s)%string in
        let fileExtension := outputFormat s in
        match loadImage env edited with
        | None => mkDownloaded [] None (handleDownload_onerror s)
        | Some img =>
            let cw := width img in
            let ch := height img in
            let sized := [SetWidth cw; SetHeight ch] in
            if negb (getContext2d env) then mkDownloaded sized None s
            else
              let filled :=
                if String.eqb (outputFormat s) "jpeg"
                then sized ++ [SetFillStyle "#ffffff"; FillRect 0 0 cw ch]
                else sized in
              let drawn := filled ++ [DrawImage img 0 0] in
              let dataUrl := toDataURL env drawn mimeType (Some lit_0_95) in
              mkDownloaded drawn
                (Some (dataUrl, ("edited-image." ++ fileExtension)%string))
                s
        end
  end.

Definition reset (s : state) : state :=
  s |> setOriginalImage None
    |> setUncroppedImage None
    |> setBackgroundImage None
    |> resetEditorState
    |> setIsLoading false.

End App.


(** ** The running application: user actions and pending calls *)

Module Session.
Import JS Canvas App.

(** The handler that awaits a file read. *)
Inductive reader := ForOriginal | ForBackground.

(** The component state together with what has been started and has
    not settled yet, oldest first: the calls of [editImageWithGemini],
    the calls of [applyTextOverlay], the calls of [fileToDataUrl], and
    the images that [handleDownload] is decoding. *)
Record session := mkSession {
  ui : state;
  inflight : list invocation;
  rendering : list overlayJob;
  reading : list (reader * Ingest.File);
  saving : list string
}.

Definition start : session := mkSession App.initial [] [] [] [].

(** Which of the three views [App] returns. *)
Inductive view := CropperView | EditorView | UploaderView.

Definition rendered (s : state) : view :=
  if truthy_opt (uncroppedImage s) then CropperView
  else match originalImage s with
       | Some _ => EditorView
       | None => UploaderView
       end.

(** [disabled={isLoading || !prompt}] on the Generate button. *)
Definition generateDisabled (s : state) : bool :=
  isLoading s || negb (truthy (prompt s)).

(** What the user and the environment can do.  [ChooseFile] and
    [ChooseBackground] carry what the reader dispatches before anything
    else happens; [ReaderDispatches] is what the reader of the [k]-th
    pending read dispatches later, [Settle] the answer of a service to
    the [k]-th pending call, [Rendered] the end of the [k]-th pending
    rendering, and [Decoded] the end of the decoding for the [k]-th
    pending download. *)
Inductive action :=
| ChooseFile (file : Ingest.File) (events : list Ingest.reader_event)
| ConfirmCrop (imgRef : option HTMLImageElement) (drag : Cropper.state)
| CancelCrop
| TypePrompt (value : string)
| ChooseBackground (file : Ingest.File) (events : list Ingest.reader_event)
| RemoveBackground
| SelectAspectRatio (value : string)
| TypeOverlayText (value : string)
| SelectFontFamily (value : string)
| TypeFontSize (value : string)
| SelectTextColor (value : string)
| SelectTextPosition (pos : string)
| ToggleTextTools
| ClickDownload
| SelectOutputFormat (value : string)
| ClickGenerate
| PressEnter
| Settle (k : nat) (svc : Gemini.service)
| Rendered (k : nat)
| Decoded (k : nat)
| ReaderDispatches (k : nat) (events : list Ingest.reader_event)
| StartOver.

Definition same_opt (a b : option string) : bool :=
  match a, b with
  | Some x, Some y => String.eqb x y
  | None, None => true
  | _, _ => false
  end.

(** Did one of the effect's dependencies change between two renders? *)
Definition depsChanged (before now : state) : bool :=
  negb (String.eqb (textOverlay before) (textOverlay now)
        && String.eqb (fontFamily before) (fontFamily now)
        && Object_is (fontSize before) (fontSize now)
        && String.eqb (textColor before) (textColor now)
        && String.eqb (textPosition before) (textPosition now)
        && same_opt (imageBeforeText before) (imageBeforeText now)).

(** The effect after a render: it runs when a dependency changed. *)
Definition afterRender (before now : state) : state * option overlayJob :=
  if depsChanged before now then applyText_begin now else (now, None).

(** Both the button and the Enter key call [handleGenerate]. *)
Definition generate (x : session) : session :=
  match handleGenerate_begin (ui x) with
  | (s, Some i) =>
      mkSession s (inflight x ++ [i]) (rendering x) (reading x) (saving x)
  | (s, None) =>
      mkSession s (inflight x) (rendering x) (reading x) (saving x)
  end.

Fixpoint remove_nth {A} (k : nat) (l : list A) : list A :=
  match k, l with
  | _, [] => []
  | O, _ :: rest => rest
  | S k', a :: rest => a :: remove_nth k' rest
  end.

(** The handler of a read, after its [await]. *)
Definition afterRead (r : reader) (file : Ingest.File)
    (events : list Ingest.reader_event) (s : state) : state :=
  match r with
  | ForOriginal => handleFileChange (Some file) events s
  | ForBackground => handleBackgroundFileChange (Some file) events s
  end.

(** A file is chosen: the read settles at once, or stays pending. *)
Definition choose (r : reader) (file : Ingest.File)
    (events : list Ingest.reader_event) (x : session) : session :=
  match Ingest.fileToDataUrl file events with
  | Pending =>
      mkSession (ui x) (inflight x) (rendering x) (reading x ++ [(r, file)])
        (saving x)
  | _ =>
      mkSession (afterRead r file events (ui x)) (inflight x) (rendering x)
        (reading x) (saving x)
  end.

(** [img.onload] or [img.onerror] of a download, on the state of that
    moment: only the second writes. *)
Definition afterDecode (env : browser) (src : string) (s : state) : state :=
  match loadImage env src with
  | Some _ => s
  | None => handleDownload_onerror s
  end.

(** What an action does before the next render; [None] when the control
    it needs is not on screen or is disabled, or when there is no such
    pending call, rendering or read. *)
Definition handle (env : browser) (a : action) (x : session)
    : option session :=
  let s := ui x in
  let on (v : view) (s' : state) : option session :=
    match rendered s, v with
    | CropperView, CropperView
    | EditorView, EditorView
    | UploaderView, UploaderView =>
        Some (mkSession s' (inflight x) (rendering x) (reading x)
                (saving x))
    | _, _ => None
    end in
  let textTools (s' : state) : option session :=
    if isTextToolsVisible s && truthy_opt (imageBeforeText s)
    then on EditorView s' else None in
  match a with
  | ChooseFile file events =>
      match rendered s with
      | UploaderView => Some (choose ForOriginal file events x)
      | _ => None
      end
  | ConfirmCrop imgRef drag =>
      match uncroppedImage s with
      | Some imageUrl =>
          match Cropper.onCropComplete
                  (Cropper.handleConfirmCrop env imgRef imageUrl drag) with
          | Some image => on CropperView (handleCropComplete image s)
          | None => on CropperView s
          end
      | None => None
      end
  | CancelCrop => on CropperView (handleCropCancel s)
  | TypePrompt value => on EditorView (setPrompt value s)
  | ChooseBackground file events =>
      match rendered s, backgroundImage s with
      | EditorView, None => Some (choose ForBackground file events x)
      | _, _ => None
      end
  | RemoveBackground =>
      match backgroundImage s with
      | Some _ => on EditorView (removeBackgroundImage s)
      | None => None
      end
  | SelectAspectRatio value => on EditorView (setAspectRatio value s)
  | TypeOverlayText value => textTools (setTextOverlay value s)
  | SelectFontFamily value => textTools (setFontFamily value s)
  | TypeFontSize value =>
      textTools (setFontSize (orElse (parseInt value) 1) s)
  | SelectTextColor value => textTools (setTextColor value s)
  | SelectTextPosition pos => textTools (setTextPosition pos s)
  | ToggleTextTools =>
      if truthy_opt (imageBeforeText s)
      then on EditorView
             (setIsTextToolsVisible (negb (isTextToolsVisible s)) s)
      else None
  | SelectOutputFormat value =>
      if truthy_opt (editedImage s) && negb (isLoading s)
      then on EditorView (setOutputFormat value s) else None
  | ClickDownload =>
      match rendered s, editedImage s with
      | EditorView, Some edited =>
          if truthy edited && negb (isLoading s)
          then Some (mkSession s (inflight x) (rendering x) (reading x)
                       (saving x ++ [edited]))
          else None
      | _, _ => None
      end
  | ClickGenerate =>
      match rendered s with
      | EditorView =>
          if generateDisabled s then None else Some (generate x)
      | _ => None
      end
  | PressEnter =>
      match rendered s with
      | EditorView => Some (generate x)
      | _ => None
      end
  | Settle k svc =>
      match nth_error (inflight x) k with
      | Some i =>
          Some (mkSession
                  (handleGenerate_resume (Gemini.returned (invoke svc i)) s)
                  (remove_nth k (inflight x)) (rendering x) (reading x)
                  (saving x))
      | None => None
      end
  | Rendered k =>
      match nth_error (rendering x) k with
      | Some job =>
          Some (mkSession (applyText_resume (render env job) s)
                  (inflight x) (remove_nth k (rendering x)) (reading x)
                  (saving x))
      | None => None
      end
  | Decoded k =>
      match nth_error (saving x) k with
      | Some src =>
          Some (mkSession (afterDecode env src s) (inflight x)
                  (rendering x) (reading x) (remove_nth k (saving x)))
      | None => None
      end
  | ReaderDispatches k events =>
      match nth_error (reading x) k with
      | Some (r, file) =>
          match Ingest.fileToDataUrl file events with
          | Pending => Some x
          | _ =>
              Some (mkSession (afterRead r file events s) (inflight x)
                      (rendering x) (remove_nth k (reading x)) (saving x))
          end
      | None => None
      end
  | StartOver => on EditorView (reset s)
  end.

(** The rendering the effect has started, if any, joins the pending
    ones. *)
Definition started (job : option overlayJob) : list overlayJob :=
  match job with Some j => [j] | None => [] end.

(** One action, then the render it causes and the effect after it. *)
Definition step (env : browser) (x : session) (a : action)
    : option session :=
  match handle env a x with
  | Some x' =>
      let '(s, job) := afterRender (ui x) (ui x') in
      Some (mkSession s (inflight x') (rendering x' ++ started job)
              (reading x') (saving x'))
  | None => None
  end.

Fixpoint run (env : browser) (x : session) (actions : list action)
    : option session :=
  match actions with
  | [] => Some x
  | a :: rest =>
      match step env x a with
      | Some x' => run env x' rest
      | None => None
      end
  end.

(** Actions other than the Enter key and Start Over. *)
Definition viaButton (a : action) : bool :=
  match a with
  | PressEnter | StartOver => false
  | _ => true
  end.



(** The controls of the text tools, and the end of a rendering. *)
Definition overlayAction (a : action) : bool :=
  match a with
  | TypeOverlayText _ | SelectFontFamily _ | TypeFontSize _
  | SelectTextColor _ | SelectTextPosition _ | ToggleTextTools
  | Rendered _ => true
  | _ => false
  end.

(** At most one call is pending, and the loading flag is up while it
    is. *)
Definition singlePending (x : session) : Prop :=
  inflight x = [] \/ (isLoading (ui x) = true /\ exists i, inflight x = [i]).

End Session.


(** ** Concrete inputs *)

Module Demo.
Import JS Canvas.

(** A 800x600 photo shown at 400x300. *)
Definition demo_photo : HTMLImageElement :=
  mkImage "data:image/jpeg;base64,/9j/4AAQ" 800 600 400 300.

(** A generated 1000x500 picture. *)
Definition demo_generated : HTMLImageElement :=
  mkImage "data:image/png;base64,R0VO" 1000 500 1000 500.

(** A browser with a 2D context that loads the generated picture and
    nothing else, and names an encoding after its type. *)
Definition demo_browser : browser :=
  mkBrowser true
    (fun _ type _ => ("data:" ++ type ++ ";base64,Q1JPUA==")%string)
    (fun src =>
       if String.eqb src "data:image/png;base64,R0VO"
       then Some demo_generated else None).

(** The same browser when no image loads. *)
Definition demo_broken : browser :=
  mkBrowser true (toDataURL demo_browser) (fun _ => None).

(** The user presses at (110, 70) and drags back to (10, 20) on a
    container whose corner is at (5, 5). *)
Definition demo_drag : Cropper.state :=
  Cropper.handleMouseUp
    (Cropper.handleMouseMove (Some (Cropper.mkDomRect 5 5))
       (Cropper.mkMouse 15 25)
       (Cropper.handleMouseDown (Some (Cropper.mkDomRect 5 5))
          (Cropper.mkMouse 115 75) Cropper.initial)).

(** A click without a drag. *)
Definition demo_click : Cropper.state :=
  Cropper.handleMouseUp
    (Cropper.handleMouseDown (Some (Cropper.mkDomRect 5 5))
       (Cropper.mkMouse 115 75) Cropper.initial).

Definition demo_options : Overlay.options :=
  Overlay.mkOptions "Arial" 48 "#ffffff" "bottom-right".

Definition demo_file : Ingest.File := Ingest.mkFile "cat.jpg" "image/jpeg".

Definition demo_read : list Ingest.reader_event :=
  [Ingest.unhandled; Ingest.onload "data:image/jpeg;base64,/9j/4AAQ"].

(** A response whose candidates all have content with parts. *)
Definition demo_response (cands : list (list Gemini.ResponsePart))
    : Gemini.GenerateContentResponse :=
  Gemini.mkResponse
    (Some (map (fun ps => Gemini.mkCandidate
                            (Some (Gemini.mkContent (Some ps)))) cands)).

(** The messages of one engine's TypeErrors. *)
Definition demo_typeError (read : Gemini.access) : string :=
  match read with
  | Gemini.index0_of_candidates =>
      "Cannot read properties of undefined (reading '0')"
  | Gemini.content_of_first_candidate =>
      "Cannot read properties of undefined (reading 'content')"
  | Gemini.parts_of_content =>
      "Cannot read properties of undefined (reading 'parts')"
  | Gemini.iteration_of_parts =>
      "response.candidates[0].content.parts is not iterable"
  | Gemini.startsWith_of_mimeType =>
      "Cannot read properties of undefined (reading 'startsWith')"
  end.

(** A service that answers with a sentence and a PNG. *)
Definition demo_service : Gemini.service :=
  Gemini.mkService None
    (fun _ =>
       inr (demo_response
              [[Gemini.mkResponsePart None (Some "Here is your picture.");
                Gemini.mkResponsePart
                  (Some (Gemini.mkBlob (Some "R0VO") (Some "image/png")))
                  None]]))
    demo_typeError.

(** A service that answers with a sentence only. *)
Definition demo_wordy : Gemini.service :=
  Gemini.mkService None
    (fun _ =>
       inr (demo_response
              [[Gemini.mkResponsePart None (Some "I cannot do that.")]]))
    demo_typeError.

(** A service that answers with a blocked candidate: no content. *)
Definition demo_blocked : Gemini.service :=
  Gemini.mkService None
    (fun _ => inr (Gemini.mkResponse (Some [Gemini.mkCandidate None])))
    demo_typeError.

(** The editor with a cropped photo and a typed prompt. *)
Definition demo_editing : App.state :=
  App.setPrompt "Add a dog"
    (App.handleCropComplete
       (mkOriginal "data:image/jpeg;base64,/9j/4AAQ" "image/png")
       App.initial).

(** The editor after a generation, with the text tools open and
    overlay text typed. *)
Definition demo_captioned : App.state :=
  App.setTextOverlay "Hi"
    (App.setIsTextToolsVisible true
       (App.setEditedImage (Some "data:image/png;base64,R0VO")
          (App.setImageBeforeText (Some "data:image/png;base64,R0VO")
             demo_editing))).

End Demo.

(** ** A whole drag on the cropper *)

Module Gesture.
Import JS Canvas Cropper.

(** Where an event falls inside the container. *)
Definition within (rect : domrect) (e : mouse) : point :=
  mkPoint (clientX e - left rect) (clientY e - top rect).

(** [onMouseMove] for each event of [moves], in order. *)
Definition moved (container : option domrect) (moves : list mouse)
    (st : state) : state :=
  fold_left (fun s e => handleMouseMove container e s) moves st.

(** [onMouseDown], the [onMouseMove]s that follow, then [onMouseUp]
    (or [onMouseLeave], which has the same handler). *)
Definition drag (container : option domrect) (down : mouse)
    (moves : list mouse) (st : state) : state :=
  handleMouseUp (moved container moves (handleMouseDown container down st)).

(** The same selection dragged from its other corner. *)
Definition reversed (st : state) : state :=
  mkState (isCropping st) (cropEnd st) (cropStart st).

(** [Number.isFinite] of both coordinates. *)
Definition finitePoint (p : point) : bool :=
  is_finite (Point.x p) && is_finite (Point.y p).

End Gesture.

(** ** Saving the original and the background image *)

Module Saving.
Import JS App.

(** The object literal [mimeTypeMap], own properties in order. *)
Definition mimeTypeMap : list (string * string) :=
  [("image/jpeg", "jpg");
   ("image/png", "png");
   ("image/webp", "webp");
   ("image/gif", "gif")].

Fixpoint own (map : list (string * string)) (key : string) : option string :=
  match map with
  | [] => None
  | (k, v) :: rest => if String.eqb k key then Some v else own rest key
  end.

(** [mimeTypeMap[key] || 'png'] inside the template literal.  A key that
    is not an own property may still name a member of
    [Object.prototype]; [inherited key] is then the text the template
    literal gives for that member (it is an object or a function, so it
    is truthy). *)
Definition extensionFor (inherited : string -> option string)
    (key : string) : string :=
  match own mimeTypeMap key with
  | Some extension => if truthy extension then extension else "png"
  | None =>
      match inherited key with
      | Some memberText => memberText
      | None => "png"
      end
  end.

(** The anchor clicked: [(href, download)]; [None] when the handler
    returns at once. *)
Definition handleOriginalImageDownload (inherited : string -> option string)
    (s : state) : option (string * string) :=
  match originalImage s with
  | None => None
  | Some image =>
      Some (url image,
            ("original." ++ extensionFor inherited (mimeType image))%string)
  end.

Definition handleBackgroundImageDownload
    (inherited : string -> option string) (s : state)
    : option (string * string) :=
  match backgroundImage s with
  | None => None
  | Some image =>
      Some (url image,
            ("background." ++ extensionFor inherited (mimeType image))%string)
  end.

End Saving.

(** ** Data URLs *)

Module DataUrl.
Import JS.

Fixpoint noComma (s : string) : bool :=
  match s with
  | EmptyString => true
  | String c rest => negb (Ascii.eqb c ",") && noComma rest
  end.

(** [`data:${mimeType};base64,${base64Data}`] *)
Definition make (mimeType base64Data : string) : string :=
  ("data:" ++ mimeType ++ ";base64," ++ base64Data)%string.

End DataUrl.

(** ** Conditions on a running application *)

Module Reachable.
Import JS Canvas App Session.

(** The original image, if any, is labelled 'image/png'. *)
Definition labelledPng (x : session) : Prop :=
  forall o, originalImage (ui x) = Some o -> mimeType o = "image/png".

(** With no call pending the loading flag is down. *)
Definition idleWhenNothingPending (x : session) : Prop :=
  inflight x = [] -> isLoading (ui x) = false.




(** With no rendering pending, the edited image is null without a
    pre-text image, the pre-text image itself under empty or
    white-space-only overlay text, and otherwise the overlay rendering
    of the pre-text image. *)
Definition settledAsSpecified (env : browser) (x : session) : Prop :=
  rendering x = [] -> displaysAsSpecified env (ui x) (ui x).

(** The pre-text image, if any, starts with [data:image/]. *)
Definition pretextIsImageUrl (x : session) : Prop :=
  forall u, imageBeforeText (ui x) = Some u ->
            startsWith u "data:image/" = true.

End Reachable.

(** * Properties *)

(** ** The JavaScript primitives on examples *)

Section PrimitiveExamples.
Import JS.

Example Math_min_picks_smaller : Math_min 110 10 = 10.
Proof. reflexivity. Qed.

Example Math_min_of_zeros : Math_min 0 (-0) = (-0) /\ Math_min (-0) 0 = (-0).
Proof. split; reflexivity. Qed.

Example Math_min_of_NaN : Math_min nan 1 = nan /\ Math_min 1 nan = nan.
Proof. split; reflexivity. Qed.

Example strict_eq_zeros : strict_eq (-0) 0 = true /\ strict_eq nan nan = false.
Proof. split; reflexivity. Qed.

Example five_percent_of_500 : 500 * lit_0_05 = 25.
Proof. reflexivity. Qed.

Example trim_both_ends : trim ("  Hi there" ++ LF)%string = "Hi there".
Proof. reflexivity. Qed.

Example trim_white_space_only :
  trim (String (ascii_of_nat 9) " ") = "" /\ truthy (trim "   ") = false.
Proof. split; reflexivity. Qed.

Example trim_unicode_white_space :
  let nbsp := String (ascii_of_nat 194) (String (ascii_of_nat 160) "") in
  let emsp :=
    String (ascii_of_nat 226)
      (String (ascii_of_nat 128) (String (ascii_of_nat 131) "")) in
  let e_acute := String (ascii_of_nat 195) (String (ascii_of_nat 169) "") in
  trim (nbsp ++ " a b " ++ emsp)%string = "a b"
  /\ blank (nbsp ++ emsp ++ " ")%string = true
  /\ trim (" " ++ e_acute ++ nbsp)%string = e_acute.
Proof. repeat split; reflexivity. Qed.

Example parseInt_of_inputs :
  parseInt "12.5" = 12 /\ parseInt " 42px" = 42 /\ parseInt "-3" = -3
  /\ parseInt "1e3" = 1 /\ parseInt "-0" = -0
  /\ is_nan (parseInt "") = true /\ is_nan (parseInt "abc") = true.
Proof. repeat split; reflexivity. Qed.

Example font_size_fallback :
  orElse (parseInt "") 1 = 1 /\ orElse (parseInt "0") 1 = 1
  /\ orElse (parseInt "72") 1 = 72 /\ orElse (parseInt "-5") 1 = -5.
Proof. repeat split; reflexivity. Qed.

Example template_of_undefined :
  ("data:" ++ "image/png" ++ ";base64," ++ templateText None)%string
  = "data:image/png;base64,undefined".
Proof. reflexivity. Qed.

Example split_data_url :
  split "," "data:image/png;base64,R0VO" = ["data:image/png;base64"; "R0VO"]
  /\ nth_error (split "," "no comma") 1 = None.
Proof. split; reflexivity. Qed.

Example payload_of_data_url :
  App.payload (mkOriginal "data:image/jpeg;base64,/9j/4AAQ" "image/png")
  = Gemini.mkImageData (Some "/9j/4AAQ") "image/png".
Proof. reflexivity. Qed.

End PrimitiveExamples.

(** ** Binary64 facts *)

Section FloatFacts.

(** The only numbers strictly equal to zero are the two zeros. *)
Lemma strict_eq_zero_inv (a : float) :
  JS.strict_eq a 0 = true -> a = 0 \/ a = (-0).
Proof.
  unfold JS.strict_eq. rewrite FloatAxioms.eqb_spec.
  intros H. rewrite <- (SF2Prim_Prim2SF a).
  destruct (Prim2SF a) as [s | s | | s m e]; cbv in H.
  - destruct s; [right | left]; reflexivity.
  - destruct s; discriminate H.
  - discriminate H.
  - destruct s; discriminate H.
Qed.

Lemma abs_sub_zeros (a b : float) :
  JS.strict_eq a 0 = true -> JS.strict_eq b 0 = true ->
  JS.strict_eq (JS.Math_abs (a - b)) 0 = true.
Proof.
  intros Ha Hb.
  destruct (strict_eq_zero_inv a Ha) as [-> | ->],
           (strict_eq_zero_inv b Hb) as [-> | ->]; reflexivity.
Qed.

Lemma SFmul_comm (prec emax : Z) (a b : spec_float) :
  SFmul prec emax a b = SFmul prec emax b a.
Proof.
  destruct a as [sa | sa | | sa ma ea], b as [sb | sb | | sb mb eb]; simpl;
    rewrite ?(xorb_comm sa sb), ?(Pos.mul_comm ma mb), ?(Z.add_comm ea eb);
    reflexivity.
Qed.

(** Binary64 multiplication commutes. *)
Lemma number_mul_comm (a b : float) : a * b = b * a.
Proof.
  rewrite <- (SF2Prim_Prim2SF (a * b)), <- (SF2Prim_Prim2SF (b * a)).
  rewrite !mul_spec. unfold SF64mul. now rewrite SFmul_comm.
Qed.

End FloatFacts.

(** ** The crop rectangle and its rasterization *)

Section CropperProperties.
Import JS Canvas Cropper.

(** The first guard of [getCropRect] never decides alone: whatever
    [isCropping] is, the result depends on the two points only. *)
Lemma getCropRect_points (st : state) :
  getCropRect st =
  if degenerate (spanned (cropStart st) (cropEnd st)) then None
  else Some (spanned (cropStart st) (cropEnd st)).
Proof.
  unfold getCropRect, degenerate, spanned; simpl.
  destruct (negb (isCropping st) && strict_eq (Point.x (cropStart st)) 0
            && strict_eq (Point.x (cropEnd st)) 0) eqn:G; [|reflexivity].
  apply andb_prop in G. destruct G as [G Hb].
  apply andb_prop in G. destruct G as [_ Ha].
  rewrite (abs_sub_zeros _ _ Ha Hb). reflexivity.
Qed.


End CropperProperties.

Section CropperExamples.
Import JS Canvas Cropper Demo.


End CropperExamples.

(** ** Text placement *)

Section OverlayProperties.
Import JS Canvas Overlay.

Lemma anchor_listed (r : row) (c : column) : In (anchor r c) textPositions.
Proof. destruct r, c; simpl; tauto. Qed.

Lemma place_anchor (r : row) (c : column) (cw ch padding : number) :
  place (anchor r c) cw ch padding =
  (align_of c, baseline_of r, x_of c cw padding, y_of r ch padding).
Proof. destruct r, c; reflexivity. Qed.

Lemma place_default (pos : string) (cw ch padding : number) :
  ~ In pos textPositions ->
  place pos cw ch padding = ("center", "middle", cw / 2, ch / 2).
Proof.
  intros Hpos. unfold place.
  repeat match goal with
  | |- context [String.eqb pos ?lit] =>
      destruct (String.eqb_spec pos lit) as [E | _];
      [exfalso; apply Hpos; rewrite E; simpl; tauto |]
  end.
  reflexivity.
Qed.

Lemma applyTextOverlay_drawn (env : browser) (base64Image text : string)
    (opts : options) (img : HTMLImageElement)
    (textAlign textBaseline : string) (x y : number) :
  loadImage env base64Image = Some img ->
  getContext2d env = true ->
  place (textPosition opts) (width img) (height img)
        (Math_min (width img) (height img) * lit_0_05)
    = (textAlign, textBaseline, x, y) ->
  applyTextOverlay env base64Image text opts =
  mkRendered (overlay_calls img text opts textAlign textBaseline x y)
    (Resolved
       (toDataURL env (overlay_calls img text opts textAlign textBaseline x y)
          "image/png" None)).
Proof.
  intros Hload Hctx Hplace. unfold applyTextOverlay.
  rewrite Hload, Hctx. simpl negb. cbv iota. rewrite Hplace. reflexivity.
Qed.

(** C2. For a bitmap of width w and height h that loads, with a 2D
    context, and padding = 0.05 * min(w, h): for each of the nine anchor
    names the text is drawn on a fresh canvas, over a copy of the bitmap,
    with left anchors at x = padding, right anchors at x = w - padding,
    horizontal-center anchors at x = w/2, top anchors at y = padding,
    bottom anchors at y = h - padding, vertical-middle anchors at
    y = h/2, and the matching textAlign and textBaseline; a position
    outside the nine names is drawn as center.  The input is only read,
    as the source of the image drawn first. *)
Theorem overlay_anchor_placement
    (env : browser) (base64Image text : string) (opts : options)
    (img : HTMLImageElement) :
  loadImage env base64Image = Some img ->
  getContext2d env = true ->
  let w := width img in
  let h := height img in
  let padding := lit_0_05 * Math_min w h in
  (forall (r : row) (c : column),
      textPosition opts = anchor r c ->
      let calls :=
        overlay_calls img text opts (align_of c) (baseline_of r)
          (x_of c w padding) (y_of r h padding) in
      applyTextOverlay env base64Image text opts =
      mkRendered calls (Resolved (toDataURL env calls "image/png" None)))
  /\ (~ In (textPosition opts) textPositions ->
      let calls :=
        overlay_calls img text opts "center" "middle" (w / 2) (h / 2) in
      applyTextOverlay env base64Image text opts =
      mkRendered calls (Resolved (toDataURL env calls "image/png" None))).
Proof.
  intros Hload Hctx w h padding. split.
  - intros r c Hpos calls. subst calls.
    apply applyTextOverlay_drawn; trivial.
    rewrite Hpos, place_anchor. unfold padding, w, h.
    now rewrite (number_mul_comm lit_0_05).
  - intros Hpos calls. subst calls.
    apply applyTextOverlay_drawn; trivial.
    now apply place_default.
Qed.

End OverlayProperties.

Section OverlayExamples.
Import JS Canvas Overlay Demo.

Lemma overlay_anchor_placement_witness :
  applyTextOverlay demo_browser "data:image/png;base64,R0VO" "Hi"
    demo_options =
  mkRendered
    (overlay_calls demo_generated "Hi" demo_options "right" "bottom" 975 475)
    (Resolved "data:image/png;base64,Q1JPUA==").
Proof.
  exact (proj1 (overlay_anchor_placement demo_browser
                  "data:image/png;base64,R0VO" "Hi" demo_options
                  demo_generated eq_refl eq_refl)
               Bottom Right eq_refl).
Defined.

End OverlayExamples.

(** ** The request sent to the service *)

Section RequestProperties.
Import JS Gemini.

Lemma aspectInstruction_fixed (aspectRatio : string) :
  aspectRatio = "16:9" \/ aspectRatio = "4:3" ->
  aspectInstruction aspectRatio =
  (LF ++ LF ++ "Please generate the output image with a "
      ++ aspectRatio ++ " aspect ratio.")%string.
Proof. intros [-> | ->]; reflexivity. Qed.

Lemma aspectInstruction_other (aspectRatio : string) :
  aspectRatio <> "16:9" -> aspectRatio <> "4:3" ->
  aspectInstruction aspectRatio =
  (LF ++ LF ++ "Please preserve the aspect ratio of the first image.")%string.
Proof.
  intros H1 H2. unfold aspectInstruction.
  apply String.eqb_neq in H1, H2. now rewrite H1, H2.
Qed.

Lemma editImageWithGemini_sent
    (svc : service) (originalImage : ImageData) (prompt : string)
    (backgroundImage : option ImageData) (aspectRatio : option string) :
  construct svc = None ->
  sent (editImageWithGemini svc originalImage prompt backgroundImage
          aspectRatio) =
  Some (requestFor originalImage prompt backgroundImage
          match aspectRatio with Some a => a | None => "original" end).
Proof.
  intros Hnew. unfold editImageWithGemini. rewrite Hnew.
  destruct (generateContent svc _) as [e | response]; [reflexivity |].
  destruct (firstCandidateParts response) as [read | ps]; [reflexivity |].
  destruct (firstImage ps); reflexivity.
Qed.

(** C3. The parts of the request are, in order: the primary image, then
    the background image exactly when one is supplied, then the text;
    the text is the prompt followed by the aspect-ratio instruction,
    which asks for a 16:9 or 4:3 output exactly when aspectRatio is
    '16:9' or '4:3' and otherwise asks to preserve the first image's
    aspect ratio; and this is the parts list of the request that
    editImageWithGemini hands to the SDK. *)
Theorem request_parts_in_order
    (svc : service) (originalImage : ImageData) (prompt : string)
    (backgroundImage : option ImageData) (aspectRatio : string) :
  let primary :=
    inlineData (base64Data originalImage) (mimeType originalImage) in
  let background :=
    match backgroundImage with
    | Some bg => [inlineData (base64Data bg) (mimeType bg)]
    | None => []
    end in
  let generate169or43 :=
    (LF ++ LF ++ "Please generate the output image with a "
        ++ aspectRatio ++ " aspect ratio.")%string in
  let preserve :=
    (LF ++ LF
        ++ "Please preserve the aspect ratio of the first image.")%string in
  (exists instruction,
      requestParts originalImage prompt backgroundImage aspectRatio =
        [primary] ++ background ++ [text (prompt ++ instruction)%string]
      /\ (aspectRatio = "16:9" \/ aspectRatio = "4:3" ->
          instruction = generate169or43)
      /\ (~ (aspectRatio = "16:9" \/ aspectRatio = "4:3") ->
          instruction = preserve))
  /\ (construct svc = None ->
      exists req,
        sent (editImageWithGemini svc originalImage prompt backgroundImage
                (Some aspectRatio)) = Some req
        /\ parts req =
           requestParts originalImage prompt backgroundImage aspectRatio).
Proof.
  intros primary background generate169or43 preserve. split.
  - exists (aspectInstruction aspectRatio). split; [| split].
    + unfold requestParts, primary, background.
      destruct backgroundImage; reflexivity.
    + apply aspectInstruction_fixed.
    + intros Hnot. apply aspectInstruction_other; intros ->; apply Hnot; tauto.
  - intros Hnew. eexists. split.
    + apply editImageWithGemini_sent, Hnew.
    + reflexivity.
Qed.

End RequestProperties.

Section RequestExamples.
Import JS Gemini Demo.

Lemma request_parts_in_order_witness :
  exists req,
    sent (editImageWithGemini demo_service
            (mkImageData (Some "/9j/4AAQ") "image/png") "Add a dog"
            (Some (mkImageData (Some "QkFDSw==") "image/webp"))
            (Some "16:9")) = Some req
    /\ parts req =
       [inlineData (Some "/9j/4AAQ") "image/png";
        inlineData (Some "QkFDSw==") "image/webp";
        text ("Add a dog" ++ LF ++ LF
              ++ "Please generate the output image with a 16:9 aspect ratio.")
             %string].
Proof.
  destruct (proj2 (request_parts_in_order demo_service
                     (mkImageData (Some "/9j/4AAQ") "image/png") "Add a dog"
                     (Some (mkImageData (Some "QkFDSw==") "image/webp"))
                     "16:9") eq_refl) as [req [Hsent Hparts]].
  exists req. split.
  - exact Hsent.
  - rewrite Hparts. reflexivity.
Defined.

End RequestExamples.

(** ** Pending calls *)

Section SessionProperties.
Import JS Canvas App Session.

Ltac split_match_in H :=
  match type of H with
  | context [match ?t with _ => _ end] => destruct t eqn:?
  end.

Ltac split_match_goal :=
  match goal with
  | |- context [match ?t with _ => _ end] => destruct t eqn:?
  end.

Ltac same_loading :=
  cbn [ui fst];
  cbv beta iota delta
    [choose afterRead afterDecode handleFileChange handleCropComplete
     handleCropCancel handleBackgroundFileChange removeBackgroundImage
     resetEditorState handleDownload_onerror applyText_begin
     applyText_resume];
  repeat split_match_goal; reflexivity.

Lemma applyText_begin_isLoading (s : state) :
  isLoading (fst (applyText_begin s)) = isLoading s.
Proof. same_loading. Qed.

Lemma afterRender_isLoading (before now : state) :
  isLoading (fst (afterRender before now)) = isLoading now.
Proof.
  unfold afterRender. destruct (depsChanged before now);
    [apply applyText_begin_isLoading | reflexivity].
Qed.

Lemma step_next (env : browser) (a : action) (x x' : session) :
  step env x a = Some x' ->
  exists y,
    handle env a x = Some y
    /\ ui x' = fst (afterRender (ui x) (ui y))
    /\ inflight x' = inflight y
    /\ rendering x' =
       rendering y ++ started (snd (afterRender (ui x) (ui y)))
    /\ reading x' = reading y
    /\ saving x' = saving y.
Proof.
  unfold step. destruct (handle env a x) as [y |]; [| discriminate].
  intros H. exists y.
  destruct (afterRender (ui x) (ui y)) as [s job].
  injection H as <-. simpl. auto 10.
Qed.

(** The effect does not run after a render that changed none of its
    dependencies. *)
Lemma depsChanged_same (before now : state) :
  textOverlay now = textOverlay before ->
  fontFamily now = fontFamily before ->
  fontSize now = fontSize before ->
  textColor now = textColor before ->
  textPosition now = textPosition before ->
  imageBeforeText now = imageBeforeText before ->
  depsChanged before now = false.
Proof.
  unfold depsChanged, Object_is. intros -> -> -> -> -> ->.
  rewrite !String.eqb_refl.
  rewrite (proj2 (FloatAxioms.Leibniz.eqb_spec _ _) eq_refl).
  destruct (imageBeforeText before) as [image |]; simpl;
    [now rewrite String.eqb_refl | reflexivity].
Qed.


(** A rendering that ends: the rest of the effect runs on the state of
    that moment, and the effect does not run again. *)
Lemma step_rendered (env : browser) (x : session) (k : nat)
    (job : overlayJob) :
  nth_error (rendering x) k = Some job ->
  step env x (Rendered k)
  = Some (mkSession (applyText_resume (render env job) (ui x))
            (inflight x) (remove_nth k (rendering x)) (reading x)
            (saving x)).
Proof.
  intros Hk. unfold step, handle. rewrite Hk. cbn [ui].
  unfold afterRender.
  rewrite depsChanged_same;
    try (unfold applyText_resume; destruct (render env job); reflexivity).
  cbn [inflight rendering reading saving started].
  now rewrite app_nil_r.
Qed.

(** What an action other than Enter and Start Over can do to the
    pending calls and to the loading flag. *)
Lemma handle_viaButton (env : browser) (a : action) (x x' : session) :
  viaButton a = true ->
  handle env a x = Some x' ->
  (inflight x' = inflight x /\ isLoading (ui x') = isLoading (ui x))
  \/ (isLoading (ui x) = false /\ x' = generate x)
  \/ (exists k i, nth_error (inflight x) k = Some i
                  /\ inflight x' = remove_nth k (inflight x)).
Proof.
  intros Hvia H. destruct a; try discriminate Hvia; unfold handle in H.
  all: try (repeat split_match_in H; try discriminate H;
            injection H as <-; left;
            (split; [reflexivity | same_loading])).
  all: try (repeat split_match_in H; try discriminate H;
            injection H as <-; left;
            (split; [unfold choose; repeat split_match_goal; reflexivity
                    | same_loading])).
  - (* ClickGenerate *)
    repeat split_match_in H; try discriminate H. injection H as <-.
    right; left. split; [| reflexivity].
    unfold generateDisabled in *.
    match goal with
    | E : _ || _ = false |- _ => apply orb_false_elim in E; tauto
    end.
  - (* Settle *)
    repeat split_match_in H; try discriminate H. injection H as <-.
    right; right. eauto.
Qed.

Lemma step_singlePending (env : browser) (a : action) (x x' : session) :
  viaButton a = true ->
  step env x a = Some x' ->
  singlePending x -> singlePending x'.
Proof.
  intros Hvia Hstep Hinv.
  destruct (step_next env a x x' Hstep) as (y & Hy & Hui & Hfly & _).
  unfold singlePending. rewrite Hui, Hfly, afterRender_isLoading.
  destruct (handle_viaButton env a x y Hvia Hy)
    as [[Hfl Hld] | [[Hld ->] | (k & i & Hk & Hfl)]].
  - rewrite Hfl, Hld. exact Hinv.
  - destruct Hinv as [Hnil | [Htrue _]]; [| congruence].
    unfold generate, handleGenerate_begin.
    destruct (truthy (prompt (ui x))); simpl; [| now left].
    destruct (originalImage (ui x)); simpl; [| now left].
    rewrite Hnil. right. split; [reflexivity | eexists; reflexivity].
  - left. rewrite Hfl.
    destruct Hinv as [Hnil | [_ [j Hone]]].
    + rewrite Hnil in Hk. destruct k; discriminate Hk.
    + rewrite Hone in *. destruct k as [| k]; [reflexivity |].
      destruct k; discriminate Hk.
Qed.

(** Through the Generate button alone the single-request discipline
    holds: [disabled={isLoading || !prompt}] keeps a second call from
    starting. *)
Lemma button_keeps_single_request (env : browser) (actions : list action)
    (x x' : session) :
  forallb viaButton actions = true ->
  singlePending x ->
  run env x actions = Some x' ->
  singlePending x' /\ (length (inflight x') <= 1)%nat.
Proof.
  revert x. induction actions as [| a rest IH]; intros x Hvia Hinv Hrun.
  - injection Hrun as <-. split; [exact Hinv |].
    destruct Hinv as [-> | [_ [i ->]]]; simpl; lia.
  - simpl in Hvia, Hrun. apply andb_prop in Hvia. destruct Hvia as [Ha Hrest].
    destruct (step env x a) as [y |] eqn:Hy; [| discriminate Hrun].
    apply (IH y Hrest); [| exact Hrun].
    now apply (step_singlePending env a x y).
Qed.

End SessionProperties.

Section SessionExamples.
Import JS Canvas App Session Demo.

Lemma start_singlePending : singlePending start.
Proof. now left. Qed.

(** The editor state [demo_captioned] is reached, in a browser that
    cannot decode the generated picture, by uploading, confirming the
    crop, generating, opening the text tools and typing the overlay
    text. *)
Lemma demo_captioned_reached :
  exists x,
    run demo_broken start
      [ChooseFile demo_file demo_read;
       ConfirmCrop (Some demo_photo) demo_click;
       TypePrompt "Add a dog";
       ClickGenerate;
       Settle 0 demo_service;
       ToggleTextTools] = Some x
    /\ handle demo_broken (TypeOverlayText "Hi") x
       = Some (mkSession demo_captioned [] [] [] []).
Proof.
  eexists. split.
  - vm_compute. reflexivity.
  - vm_compute. reflexivity.
Qed.

(** Start Over lowers the loading flag without waiting for the pending
    call, so the button is enabled again while that call is in flight. *)
Lemma start_over_forgets_pending_call :
  exists x,
    run demo_browser start
      [ChooseFile demo_file demo_read;
       ConfirmCrop (Some demo_photo) demo_click;
       TypePrompt "Add a dog";
       ClickGenerate;
       StartOver;
       ChooseFile demo_file demo_read;
       ConfirmCrop (Some demo_photo) demo_click;
       TypePrompt "Add a cat";
       ClickGenerate] = Some x
    /\ length (inflight x) = 2%nat.
Proof.
  eexists. split; vm_compute; reflexivity.
Qed.

(** C4, on the code.  With one call in flight the Generate button is
    disabled, but the Enter key in the prompt field still calls
    handleGenerate, which does not look at the loading flag: pressing
    Enter twice leaves two calls of editImageWithGemini pending. *)
Theorem enter_key_starts_second_call :
  exists waiting both,
    run demo_browser start
      [ChooseFile demo_file demo_read;
       ConfirmCrop (Some demo_photo) demo_click;
       TypePrompt "Add a dog";
       PressEnter] = Some waiting
    /\ isLoading (ui waiting) = true
    /\ length (inflight waiting) = 1%nat
    /\ step demo_browser waiting ClickGenerate = None
    /\ step demo_browser waiting PressEnter = Some both
    /\ isLoading (ui both) = true
    /\ length (inflight both) = 2%nat.
Proof.
  eexists _, _. split; [vm_compute; reflexivity |].
  repeat split; vm_compute; reflexivity.
Qed.

End SessionExamples.

(** ** Download *)

Section DownloadProperties.
Import JS Canvas App.

(** C5. Whenever a download takes place (there is an edited image, it
    loads, and a 2D context exists), the bitmap is drawn on a fresh
    canvas of its size and encoded as image/<format> at quality 0.95,
    and the anchor clicked saves it as 'edited-image.<format>'; the
    canvas is filled with opaque white before the bitmap is drawn
    exactly when the format is jpeg, and for png and webp (any other
    format) the bitmap is drawn with no fill. *)
Theorem download_reencodes_selected_format
    (env : browser) (s : state) (edited : string)
    (img : HTMLImageElement) :
  editedImage s = Some edited ->
  truthy edited = true ->
  loadImage env edited = Some img ->
  getContext2d env = true ->
  let sized := [SetWidth (width img); SetHeight (height img)] in
  let white :=
    [SetFillStyle "#ffffff"; FillRect 0 0 (width img) (height img)] in
  let bitmap := [DrawImage img 0 0] in
  exists calls,
    handleDownload env s =
      mkDownloaded calls
        (Some (toDataURL env calls ("image/" ++ outputFormat s)%string
                 (Some lit_0_95),
               ("edited-image." ++ outputFormat s)%string))
        s
    /\ (outputFormat s = "jpeg" -> calls = sized ++ white ++ bitmap)
    /\ (outputFormat s <> "jpeg" -> calls = sized ++ bitmap)
    /\ (outputFormat s = "png" \/ outputFormat s = "webp" ->
        calls = sized ++ bitmap).
Proof.
  intros Hed Htruthy Hload Hctx sized white bitmap.
  unfold handleDownload. rewrite Hed, Htruthy, Hload, Hctx. simpl negb.
  cbv iota.
  destruct (String.eqb_spec (outputFormat s) "jpeg") as [E | NE].
  - eexists. split; [reflexivity |]. repeat split.
    + intros NE. contradiction.
    + rewrite E. intros [H | H]; discriminate H.
  - eexists. split; [reflexivity |]. repeat split.
    + intros E. contradiction.
Qed.

End DownloadProperties.

Section DownloadExamples.
Import JS Canvas App Demo.

Lemma download_reencodes_selected_format_witness :
  handleDownload demo_browser
    (setOutputFormat "jpeg" demo_captioned) =
  mkDownloaded
    [SetWidth 1000; SetHeight 500;
     SetFillStyle "#ffffff"; FillRect 0 0 1000 500;
     DrawImage demo_generated 0 0]
    (Some ("data:image/jpeg;base64,Q1JPUA==", "edited-image.jpeg"))
    (setOutputFormat "jpeg" demo_captioned).
Proof.
  destruct (download_reencodes_selected_format demo_browser
              (setOutputFormat "jpeg" demo_captioned)
              "data:image/png;base64,R0VO" demo_generated
              eq_refl eq_refl eq_refl eq_refl)
    as [calls [Hrun [Hjpeg _]]].
  rewrite Hrun, (Hjpeg eq_refl). reflexivity.
Defined.

End DownloadExamples.

(** ** Generation and its failures *)

Section GenerateProperties.
Import JS Canvas App Session Reachable.

Lemma firstImage_none (ps : list Gemini.ResponsePart) :
  Gemini.firstImage ps = Gemini.NoImage <->
  (forall part, In part ps -> Gemini.isPassedOver part = true).
Proof.
  induction ps as [| p rest IH]; simpl.
  - split; [intros _ part [] | reflexivity].
  - destruct (Gemini.rInlineData p) as [blob |] eqn:B.
    + destruct (Gemini.bMimeType blob) as [mime |] eqn:M.
      * destruct (startsWith mime "image/") eqn:P.
        -- split; [discriminate |].
           intros H. specialize (H p (or_introl eq_refl)).
           unfold Gemini.isPassedOver in H. rewrite B, M, P in H.
           discriminate.
        -- rewrite IH. split.
           ++ intros H part [<- | Hin]; [| now apply H].
              unfold Gemini.isPassedOver. now rewrite B, M, P.
           ++ intros H part Hin. apply H. now right.
      * split; [discriminate |].
        intros H. specialize (H p (or_introl eq_refl)).
        unfold Gemini.isPassedOver in H. rewrite B, M in H. discriminate.
    + rewrite IH. split.
      * intros H part [<- | Hin]; [| now apply H].
        unfold Gemini.isPassedOver. now rewrite B.
      * intros H part Hin. apply H. now right.
Qed.


(** Whatever the service does, the promise is settled when it
    returns. *)
Lemma editImageWithGemini_settles
    (svc : Gemini.service) (originalImage : Gemini.ImageData)
    (prompt : string) (backgroundImage : option Gemini.ImageData)
    (aspectRatio : option string) :
  Gemini.returned
    (Gemini.editImageWithGemini svc originalImage prompt backgroundImage
       aspectRatio) <> Pending.
Proof.
  unfold Gemini.editImageWithGemini.
  destruct (Gemini.construct svc) as [[m |] |]; simpl; try discriminate.
  destruct (Gemini.generateContent svc _) as [[m |] | response]; simpl;
    try discriminate.
  destruct (Gemini.firstCandidateParts response) as [read | ps]; simpl;
    try discriminate.
  destruct (Gemini.firstImage ps); simpl; discriminate.
Qed.











End GenerateProperties.

Section GenerateExamples.
Import JS Canvas App Session Reachable Demo.



End GenerateExamples.

(** ** Reading the chosen file *)

Section IngestProperties.
Import JS Ingest.

Lemma dispatch_settled (file : File) (events : list reader_event)
    (p : promise OriginalImage string) :
  p <> Pending -> fold_left (dispatch file) events p = p.
Proof.
  revert p. induction events as [| ev rest IH]; intros p Hp; simpl.
  - reflexivity.
  - assert (E : dispatch file p ev = p).
    { destruct p, ev; simpl; congruence. }
    rewrite E. now apply IH.
Qed.

Lemma fileToDataUrl_first_handled (file : File)
    (events : list reader_event) :
  fileToDataUrl file events =
  match first_handled events with
  | onload result => Resolved (mkOriginal result (type file))
  | onerror error => Rejected error
  | unhandled => Pending
  end.
Proof.
  unfold fileToDataUrl.
  induction events as [| ev rest IH]; simpl.
  - reflexivity.
  - destruct ev; simpl.
    + apply dispatch_settled. discriminate.
    + apply dispatch_settled. discriminate.
    + exact IH.
Qed.

(** C7. For every file, the promise of fileToDataUrl resolves, when the
    reader loads, with the reader's data URL as url and the file's own
    type as mimeType, and it rejects exactly when the reader reports an
    error (the first event a handler reacts to is the error event). *)
Theorem fileToDataUrl_resolves_or_rejects (file : File)
    (events : list reader_event) :
  (forall result,
      first_handled events = onload result <->
      fileToDataUrl file events = Resolved (mkOriginal result (type file)))
  /\ (forall error,
      first_handled events = onerror error <->
      fileToDataUrl file events = Rejected error).
Proof.
  rewrite fileToDataUrl_first_handled.
  split; intros v; split; intros H.
  - now rewrite H.
  - destruct (first_handled events); try discriminate H.
    injection H as ->. reflexivity.
  - now rewrite H.
  - destruct (first_handled events); try discriminate H.
    injection H as ->. reflexivity.
Qed.

End IngestProperties.

Section IngestExamples.
Import JS Ingest.

Lemma fileToDataUrl_resolves_or_rejects_witness :
  fileToDataUrl (mkFile "cat.jpg" "image/jpeg")
    [unhandled; onload "data:image/jpeg;base64,/9j/4AAQ"; unhandled] =
  Resolved (mkOriginal "data:image/jpeg;base64,/9j/4AAQ" "image/jpeg")
  /\ fileToDataUrl (mkFile "cat.jpg" "image/jpeg")
       [unhandled; onerror "NotReadableError"] =
     Rejected "NotReadableError".
Proof.
  split.
  - exact (proj1 (proj1 (fileToDataUrl_resolves_or_rejects
                           (mkFile "cat.jpg" "image/jpeg")
                           [unhandled;
                            onload "data:image/jpeg;base64,/9j/4AAQ";
                            unhandled])
                        "data:image/jpeg;base64,/9j/4AAQ") eq_refl).
  - exact (proj1 (proj2 (fileToDataUrl_resolves_or_rejects
                           (mkFile "cat.jpg" "image/jpeg")
                           [unhandled; onerror "NotReadableError"])
                        "NotReadableError") eq_refl).
Defined.

End IngestExamples.

(** ** The MIME label of what leaves the cropper *)

Section CropperLabels.
Import JS Canvas Cropper.


End CropperLabels.

Section CropperLabelExamples.
Import JS Canvas Cropper Demo.


End CropperLabelExamples.

(** ** The background image and the prompt *)

Section BackgroundProperties.
Import JS App.

(** C9. A background image that loads overwrites the prompt with the
    fixed sentence, whatever was typed; removing the background image
    clears the prompt when, and only when, the prompt is that sentence,
    and leaves any other prompt and every other cell of the editor
    state (original image, edited image, overlay settings, ...) as it
    was. *)
Theorem background_prompt_frame
    (file : Ingest.File) (events : list Ingest.reader_event)
    (imageData : OriginalImage) (s : state) :
  backgroundPrompt =
    "Replace the background of the first image with the second image."
  /\ (Ingest.fileToDataUrl file events = Resolved imageData ->
      prompt (handleBackgroundFileChange (Some file) events s)
        = backgroundPrompt
      /\ backgroundImage (handleBackgroundFileChange (Some file) events s)
        = Some imageData)
  /\ backgroundImage (removeBackgroundImage s) = None
  /\ (prompt s = backgroundPrompt -> prompt (removeBackgroundImage s) = "")
  /\ (prompt s <> backgroundPrompt ->
      prompt (removeBackgroundImage s) = prompt s)
  /\ uncroppedImage (removeBackgroundImage s) = uncroppedImage s
  /\ originalImage (removeBackgroundImage s) = originalImage s
  /\ imageBeforeText (removeBackgroundImage s) = imageBeforeText s
  /\ editedImage (removeBackgroundImage s) = editedImage s
  /\ isLoading (removeBackgroundImage s) = isLoading s
  /\ error (removeBackgroundImage s) = error s
  /\ textOverlay (removeBackgroundImage s) = textOverlay s
  /\ fontFamily (removeBackgroundImage s) = fontFamily s
  /\ fontSize (removeBackgroundImage s) = fontSize s
  /\ textColor (removeBackgroundImage s) = textColor s
  /\ textPosition (removeBackgroundImage s) = textPosition s
  /\ isTextToolsVisible (removeBackgroundImage s) = isTextToolsVisible s
  /\ outputFormat (removeBackgroundImage s) = outputFormat s
  /\ aspectRatio (removeBackgroundImage s) = aspectRatio s.
Proof.
  split; [reflexivity |]. split.
  - intros Hread. unfold handleBackgroundFileChange. rewrite Hread.
    split; reflexivity.
  - unfold removeBackgroundImage.
    destruct (String.eqb_spec (prompt s) backgroundPrompt) as [E | NE];
      repeat split; simpl; try reflexivity; try congruence.
Qed.

End BackgroundProperties.

Section BackgroundExamples.
Import JS App Demo.

Lemma background_prompt_frame_witness :
  prompt (handleBackgroundFileChange (Some demo_file) demo_read demo_editing)
    = "Replace the background of the first image with the second image."
  /\ prompt (removeBackgroundImage
               (handleBackgroundFileChange (Some demo_file) demo_read
                  demo_editing)) = ""
  /\ prompt (removeBackgroundImage demo_editing) = "Add a dog".
Proof.
  pose proof (background_prompt_frame demo_file demo_read
                (mkOriginal "data:image/jpeg;base64,/9j/4AAQ" "image/jpeg")
                demo_editing) as [_ [Hup [_ [_ [Hkeep _]]]]].
  pose proof (background_prompt_frame demo_file demo_read
                (mkOriginal "data:image/jpeg;base64,/9j/4AAQ" "image/jpeg")
                (handleBackgroundFileChange (Some demo_file) demo_read
                   demo_editing)) as [_ [_ [_ [Hclear _]]]].
  split; [| split].
  - exact (proj1 (Hup eq_refl)).
  - exact (Hclear eq_refl).
  - apply Hkeep. discriminate.
Defined.

End BackgroundExamples.

(** ** The text-overlay effect *)

Section EffectProperties.
Import JS Canvas App.

Lemma trimEnd_empty (s : string) :
  trimEnd s = EmptyString <-> blank s = true.
Proof.
  destruct s as [| c rest]; [simpl; tauto |].
  change (trimEnd (String c rest))
    with (if blank (String c rest) then EmptyString
          else String c (trimEnd rest)).
  destruct (blank (String c rest)); split; congruence.
Qed.

Lemma blank_trimStart_bounded (n : nat) (s : string) :
  (String.length s <= n)%nat -> blank (trimStart s) = blank s.
Proof.
  revert s. induction n as [| n IH]; intros s Hlen.
  - destruct s; [reflexivity | simpl in Hlen; lia].
  - destruct s as [| c1 [| c2 [| c3 rest3]]]; simpl in Hlen.
    + reflexivity.
    + simpl. destruct (isWhiteSpace c1) eqn:W1; simpl; now rewrite ?W1.
    + simpl. destruct (isWhiteSpace c1) eqn:W1.
      * destruct (isWhiteSpace c2) eqn:W2; simpl; now rewrite ?W2.
      * destruct (isWhiteSpace2 c1 c2) eqn:W12; simpl;
          now rewrite ?W1, ?W12.
    + assert (H1 : blank (trimStart (String c2 (String c3 rest3)))
                   = blank (String c2 (String c3 rest3)))
        by (apply IH; simpl; lia).
      assert (H2 : blank (trimStart (String c3 rest3))
                   = blank (String c3 rest3))
        by (apply IH; simpl; lia).
      assert (H3 : blank (trimStart rest3) = blank rest3)
        by (apply IH; lia).
      change (trimStart (String c1 (String c2 (String c3 rest3))))
        with (if isWhiteSpace c1
              then trimStart (String c2 (String c3 rest3))
              else if isWhiteSpace2 c1 c2
                   then trimStart (String c3 rest3)
                   else if isWhiteSpace3 c1 c2 c3
                        then trimStart rest3
                        else String c1 (String c2 (String c3 rest3))).
      change (blank (String c1 (String c2 (String c3 rest3))))
        with (if isWhiteSpace c1
              then blank (String c2 (String c3 rest3))
              else if isWhiteSpace2 c1 c2
                   then blank (String c3 rest3)
                   else if isWhiteSpace3 c1 c2 c3
                        then blank rest3
                        else false).
      destruct (isWhiteSpace c1) eqn:W1; [exact H1 |].
      destruct (isWhiteSpace2 c1 c2) eqn:W12; [exact H2 |].
      destruct (isWhiteSpace3 c1 c2 c3) eqn:W123; [exact H3 |].
      change (blank (String c1 (String c2 (String c3 rest3))))
        with (if isWhiteSpace c1
              then blank (String c2 (String c3 rest3))
              else if isWhiteSpace2 c1 c2
                   then blank (String c3 rest3)
                   else if isWhiteSpace3 c1 c2 c3
                        then blank rest3
                        else false).
      now rewrite W1, W12, W123.
Qed.

Lemma blank_trimStart (s : string) : blank (trimStart s) = blank s.
Proof. now apply (blank_trimStart_bounded (String.length s)). Qed.

(** [textOverlay.trim()] is falsy exactly for empty or white-space-only
    text. *)
Lemma trim_truthy (s : string) : truthy (trim s) = negb (blank s).
Proof.
  unfold trim. rewrite <- (blank_trimStart s).
  destruct (trimEnd (trimStart s)) eqn:E.
  - apply trimEnd_empty in E. now rewrite E.
  - destruct (blank (trimStart s)) eqn:B; [| reflexivity].
    apply trimEnd_empty in B. congruence.
Qed.

(** applyTextOverlay has settled when the image has loaded or failed. *)
Lemma overlayRendering_settles (env : browser) (s : state)
    (image : string) :
  overlayRendering env s image <> Pending.
Proof.
  unfold overlayRendering, Overlay.applyTextOverlay.
  destruct (loadImage env image) as [img |]; simpl; [| discriminate].
  destruct (getContext2d env); simpl; [| discriminate].
  destruct (Overlay.place _ _ _ _) as [[[a b] x] y]. simpl. discriminate.
Qed.

Lemma overlayRendering_rejected (env : browser) (s : state)
    (image : string) :
  (exists reason, overlayRendering env s image = Rejected reason) <->
  loadImage env image = None \/ getContext2d env = false.
Proof.
  unfold overlayRendering, Overlay.applyTextOverlay.
  destruct (loadImage env image) as [img |]; simpl.
  - destruct (getContext2d env); simpl.
    + destruct (Overlay.place _ _ _ _) as [[[a b] x] y]. simpl.
      split; [intros [reason H] | intros [H | H]]; discriminate H.
    + split; [now right | intros _; eauto].
  - split; [now left | intros _; eauto].
Qed.

(** The effect up to its [await], case by case. *)
Lemma applyText_begin_cases (s : state) :
  (truthy_opt (imageBeforeText s) = false ->
     applyText_begin s = (setEditedImage None s, None))
  /\ (forall image,
        imageBeforeText s = Some image -> truthy image = true ->
        (blank (textOverlay s) = true ->
           applyText_begin s = (setEditedImage (Some image) s, None))
        /\ (blank (textOverlay s) = false ->
            applyText_begin s =
            (s, Some (mkJob image (textOverlay s) (overlayOptions s))))).
Proof.
  unfold applyText_begin, overlayOptions. split.
  - destruct (imageBeforeText s) as [image |]; simpl; [| reflexivity].
    intros ->. reflexivity.
  - intros image -> Himage. rewrite Himage, trim_truthy. simpl negb.
    cbv iota. split; intros ->; reflexivity.
Qed.

(** A control of the text tools, or the end of a rendering, leaves the
    pre-text image as it is. *)
Lemma step_overlayAction (env : browser) (x : Session.session)
    (a : Session.action) (x' : Session.session) :
  Session.overlayAction a = true ->
  Session.step env x a = Some x' ->
  imageBeforeText (Session.ui x') = imageBeforeText (Session.ui x).
Proof.
  intros Hov Hstep. unfold Session.step in Hstep.
  destruct (Session.handle env a x) as [y |] eqn:Hy; [| discriminate Hstep].
  assert (Hsame : imageBeforeText (Session.ui y)
                  = imageBeforeText (Session.ui x)).
  { destruct a; try discriminate Hov; unfold Session.handle in Hy.
    all: repeat match type of Hy with
                | context [match ?t with _ => _ end] => destruct t eqn:?
                end; try discriminate Hy; injection Hy as <-.
    all: try reflexivity.
    unfold applyText_resume. cbn [Session.ui].
    destruct (render env _); reflexivity. }
  assert (Heffect : imageBeforeText
                      (fst (Session.afterRender (Session.ui x)
                              (Session.ui y)))
                    = imageBeforeText (Session.ui y)).
  { unfold Session.afterRender, applyText_begin.
    destruct (Session.depsChanged _ _); [| reflexivity].
    destruct (imageBeforeText (Session.ui y)) as [image |] eqn:E;
      [| exact E].
    destruct (negb (truthy image)); [exact E |].
    destruct (truthy (trim (textOverlay (Session.ui y)))); exact E. }
  destruct (Session.afterRender _ _) as [s' job].
  injection Hstep as <-. cbn [Session.ui]. simpl fst in Heffect.
  now rewrite Heffect.
Qed.

(** C10, as the code has it.  When the text-overlay effect runs:
    without a pre-text image it sets the edited image to null; with a
    pre-text image and empty or white-space-only overlay text it sets
    the edited image to the pre-text image itself, the same data URL;
    otherwise it starts the overlay rendering of the pre-text image and
    writes nothing until that ends.  When the rendering ends the effect
    writes onto the state of that moment, whatever has happened in
    between: the rendering becomes the edited image if it succeeded,
    and if it failed the error is set to 'Failed to apply text
    overlay.' and the edited image keeps its value.  When nothing
    happens in between, the edited image is therefore null, the
    pre-text image or its rendering as above, and on a failed rendering
    the value it had.  The effect never changes the pre-text image, and
    neither does any control of the text tools. *)
Theorem overlay_effect_begin_and_end (env : browser) (s : state) :
  (truthy_opt (imageBeforeText s) = false ->
     applyText_begin s = (setEditedImage None s, None))
  /\ (forall image,
        imageBeforeText s = Some image -> truthy image = true ->
        (blank (textOverlay s) = true ->
           applyText_begin s = (setEditedImage (Some image) s, None))
        /\ (blank (textOverlay s) = false ->
            exists job,
              applyText_begin s = (s, Some job)
              /\ render env job = overlayRendering env s image
              /\ render env job <> Pending
              /\ (forall rendering now,
                    render env job = Resolved rendering ->
                    applyText_resume (render env job) now
                    = setEditedImage (Some rendering) now)
              /\ (forall reason now,
                    render env job = Rejected reason ->
                    applyText_resume (render env job) now
                    = setError (Some "Failed to apply text overlay.") now)))
  /\ (imageBeforeText (applyText env s) = imageBeforeText s
      /\ (truthy_opt (imageBeforeText s) = false ->
          editedImage (applyText env s) = None)
      /\ (forall image,
            imageBeforeText s = Some image -> truthy image = true ->
            (blank (textOverlay s) = true ->
               editedImage (applyText env s) = Some image)
            /\ (blank (textOverlay s) = false ->
                (forall rendering,
                    overlayRendering env s image = Resolved rendering ->
                    editedImage (applyText env s) = Some rendering)
                /\ (forall reason,
                    overlayRendering env s image = Rejected reason ->
                    editedImage (applyText env s) = editedImage s
                    /\ error (applyText env s)
                       = Some "Failed to apply text overlay."))))
  /\ imageBeforeText (fst (applyText_begin s)) = imageBeforeText s
  /\ (forall outcome now,
        imageBeforeText (applyText_resume outcome now)
        = imageBeforeText now)
  /\ (forall x k job,
        nth_error (Session.rendering x) k = Some job ->
        exists x',
          Session.step env x (Session.Rendered k) = Some x'
          /\ Session.ui x' = applyText_resume (render env job) (Session.ui x)
          /\ Session.rendering x'
             = Session.remove_nth k (Session.rendering x))
  /\ (forall x a x',
        Session.overlayAction a = true ->
        Session.step env x a = Some x' ->
        imageBeforeText (Session.ui x') = imageBeforeText (Session.ui x)).
Proof.
  destruct (applyText_begin_cases s) as [Hnone Hsome].
  split; [exact Hnone |].
  split; [| split; [| split; [| split; [| split]]]].
  - intros image Himage Htruthy.
    destruct (Hsome image Himage Htruthy) as [Hblank Htext].
    split; [exact Hblank |].
    intros Hb. exists (mkJob image (textOverlay s) (overlayOptions s)).
    split; [exact (Htext Hb) |].
    split; [reflexivity |].
    split; [exact (overlayRendering_settles env s image) |].
    split.
    + intros rendering now ->. reflexivity.
    + intros reason now ->. reflexivity.
  - unfold applyText. split; [| split].
    + destruct (truthy_opt (imageBeforeText s)) eqn:T.
      * destruct (imageBeforeText s) as [image |] eqn:E; [| discriminate T].
        simpl in T. destruct (Hsome image eq_refl T) as [Hblank Htext].
        destruct (blank (textOverlay s)).
        -- rewrite (Hblank eq_refl). exact E.
        -- rewrite (Htext eq_refl). unfold applyText_resume.
           destruct (render env _); exact E.
      * rewrite (Hnone eq_refl). reflexivity.
    + intros T. now rewrite (Hnone T).
    + intros image Himage Htruthy.
      destruct (Hsome image Himage Htruthy) as [Hblank Htext].
      split.
      * intros Hb. now rewrite (Hblank Hb).
      * intros Hb. rewrite (Htext Hb).
        change (render env (mkJob image (textOverlay s) (overlayOptions s)))
          with (overlayRendering env s image).
        split.
        -- intros rendering ->. reflexivity.
        -- intros reason ->. split; reflexivity.
  - unfold applyText_begin.
    destruct (imageBeforeText s) as [image |] eqn:E; [| exact E].
    destruct (negb (truthy image)); [exact E |].
    destruct (truthy (trim (textOverlay s))); exact E.
  - intros outcome now. destruct outcome; reflexivity.
  - intros x k job Hk. eexists.
    split; [exact (step_rendered env x k job Hk) |].
    split; reflexivity.
  - intros x a x'. apply step_overlayAction.
Qed.

End EffectProperties.

Section EffectExamples.
Import JS Canvas App Session Reachable Demo.

(** C10 as worded fails in two ways.  When the browser cannot decode
    the picture the rendering is rejected, and the edited image stays
    the pre-text image although overlay text is present.  And when the
    user starts over while a rendering is pending, the rendering still
    becomes the edited image when it ends: no rendering is pending
    then, there is no pre-text image, and the edited image is not
    null. *)
Lemma overlay_effect_not_as_specified :
  ~ displaysAsSpecified demo_broken demo_captioned
      (applyText demo_broken demo_captioned)
  /\ exists x,
       run demo_browser start
         [ChooseFile demo_file demo_read;
          ConfirmCrop (Some demo_photo) demo_click;
          TypePrompt "Add a dog";
          ClickGenerate;
          Settle 0 demo_service;
          ToggleTextTools;
          TypeOverlayText "Hi";
          StartOver;
          Rendered 0] = Some x
       /\ rendering x = []
       /\ imageBeforeText (ui x) = None
       /\ editedImage (ui x) <> None
       /\ ~ settledAsSpecified demo_browser x.
Proof.
  split.
  - intros [_ [_ H]].
    destruct (H "data:image/png;base64,R0VO" eq_refl eq_refl eq_refl)
      as [rendering [Hresolved _]].
    discriminate Hresolved.
  - eexists. split; [vm_compute; reflexivity |].
    split; [reflexivity |]. split; [reflexivity |].
    split; [discriminate |].
    intros H. destruct (H eq_refl) as [Hnull _].
    specialize (Hnull eq_refl). discriminate Hnull.
Qed.

Lemma overlay_effect_begin_and_end_witness :
  editedImage (applyText demo_broken demo_captioned)
    = Some "data:image/png;base64,R0VO"
  /\ error (applyText demo_broken demo_captioned)
     = Some "Failed to apply text overlay."
  /\ editedImage (applyText demo_browser demo_captioned)
     = Some "data:image/png;base64,Q1JPUA=="
  /\ applyText_begin (setTextOverlay " " demo_captioned)
     = (setEditedImage (Some "data:image/png;base64,R0VO")
          (setTextOverlay " " demo_captioned), None).
Proof.
  pose proof (overlay_effect_begin_and_end demo_broken demo_captioned)
    as [_ [_ [[_ [_ Hbroken]] _]]].
  pose proof (overlay_effect_begin_and_end demo_browser demo_captioned)
    as [_ [_ [[_ [_ Hworks]] _]]].
  pose proof (overlay_effect_begin_and_end demo_browser
                (setTextOverlay " " demo_captioned))
    as [_ [Hspace _]].
  destruct (proj2 (Hbroken "data:image/png;base64,R0VO" eq_refl eq_refl)
              eq_refl) as [_ Hrejected].
  destruct (proj2 (Hworks "data:image/png;base64,R0VO" eq_refl eq_refl)
              eq_refl) as [Hresolved _].
  destruct (Hrejected "Failed to load image for text overlay." eq_refl)
    as [Hkept Herror].
  split; [| split; [| split]].
  - exact Hkept.
  - exact Herror.
  - exact (Hresolved "data:image/png;base64,Q1JPUA==" eq_refl).
  - exact (proj1 (Hspace "data:image/png;base64,R0VO" eq_refl eq_refl)
             eq_refl).
Defined.

End EffectExamples.

(** * Further properties of the code *)

(** ** More binary64 facts *)

Section NumberFacts.

Lemma number_of_spec (a : float) (f : spec_float) :
  Prim2SF a = f -> a = SF2Prim f.
Proof. intros <-. now rewrite SF2Prim_Prim2SF. Qed.

Lemma is_nan_spec (a : float) :
  is_nan a = match Prim2SF a with S754_nan => true | _ => false end.
Proof.
  unfold is_nan. rewrite FloatAxioms.eqb_spec.
  destruct (Prim2SF a) as [s | s | | s m e]; try reflexivity.
  - destruct s; reflexivity.
  - unfold SFeqb, SFcompare.
    rewrite Z.compare_refl, Pos.compare_cont_refl. destruct s; reflexivity.
Qed.

Lemma is_finite_spec (a : float) :
  is_finite a = true ->
  match Prim2SF a with S754_zero _ | S754_finite _ _ _ => True | _ => False end.
Proof.
  unfold is_finite, is_infinity.
  rewrite is_nan_spec, FloatAxioms.eqb_spec, abs_spec.
  destruct (Prim2SF a) as [s | s | | s m e]; simpl; try tauto; try discriminate.
Qed.

Lemma sub_self (a : float) : is_finite a = true -> a - a = 0.
Proof.
  intros H. apply is_finite_spec in H.
  apply (number_of_spec _ (S754_zero false)). rewrite sub_spec.
  destruct (Prim2SF a) as [s | s | | s m e]; try contradiction.
  - destruct s; reflexivity.
  - unfold SF64sub, SFsub. rewrite Z.sub_diag. reflexivity.
Qed.

Lemma SFcompare_antisym (x y : spec_float) :
  SFcompare y x = option_map CompOpp (SFcompare x y).
Proof.
  destruct x as [sx | sx | | sx mx ex], y as [sy | sy | | sy my ey];
    try reflexivity;
    try (destruct sx; reflexivity); try (destruct sy; reflexivity);
    try (destruct sx, sy; reflexivity).
  simpl. rewrite (Z.compare_antisym ex ey).
  pose proof (Pos.compare_cont_antisym mx my Eq) as M. simpl in M.
  destruct sx, sy; simpl; try reflexivity;
  destruct (ex ?= ey)%Z; simpl; try reflexivity; rewrite <- M;
  now rewrite ?CompOpp_involutive.
Qed.

Lemma SFcompare_eq (x y : spec_float) :
  SFcompare x y = Some Eq ->
  (exists sx sy, x = S754_zero sx /\ y = S754_zero sy) \/ x = y.
Proof.
  destruct x as [sx | sx | | sx mx ex], y as [sy | sy | | sy my ey]; simpl;
    intros H; try discriminate H; eauto;
    try (destruct sx; discriminate H); try (destruct sy; discriminate H).
  - destruct sx, sy; try discriminate H; auto.
  - right.
    destruct sx, sy; try discriminate H;
    destruct (ex ?= ey)%Z eqn:E; try discriminate H;
    apply Z.compare_eq in E; subst ey.
    + destruct (Pos.compare_cont Eq mx my) eqn:M; try discriminate H.
      apply Pos.compare_eq in M. now subst.
    + injection H as H. apply Pos.compare_eq in H. now subst.
Qed.

Lemma ltb_antisym (a b : float) : (a <? b) = true -> (b <? a) = false.
Proof.
  rewrite !ltb_spec. unfold SFltb. rewrite (SFcompare_antisym (Prim2SF a)).
  destruct (SFcompare (Prim2SF a) (Prim2SF b)) as [[| |] |]; simpl; congruence.
Qed.

Lemma is_zero_spec (a : float) :
  is_zero a = match Prim2SF a with S754_zero _ => true | _ => false end.
Proof.
  unfold is_zero. rewrite FloatAxioms.eqb_spec.
  destruct (Prim2SF a) as [s | s | | s m e]; try reflexivity;
    destruct s; reflexivity.
Qed.

Lemma zero_cases (a : float) s : Prim2SF a = S754_zero s -> a = 0 \/ a = -0.
Proof.
  intros H. apply number_of_spec in H. subst. destruct s; auto.
Qed.

Lemma Math_min_comm (a b : float) : JS.Math_min a b = JS.Math_min b a.
Proof.
  unfold JS.Math_min. rewrite (orb_comm (is_nan b)).
  destruct (is_nan a || is_nan b) eqn:N; [reflexivity |].
  apply orb_false_elim in N. destruct N as [Na Nb].
  destruct (a <? b) eqn:L1.
  - now rewrite (ltb_antisym _ _ L1).
  - destruct (b <? a) eqn:L2; [reflexivity |].
    rewrite is_nan_spec in Na, Nb. rewrite ltb_spec in L1, L2.
    unfold SFltb in L1, L2.
    rewrite (SFcompare_antisym (Prim2SF a)) in L2.
    destruct (SFcompare (Prim2SF a) (Prim2SF b)) as [[| |] |] eqn:C;
      try discriminate.
    + apply SFcompare_eq in C. destruct C as [(sa & sb & Ha & Hb) | E].
      * apply zero_cases in Ha, Hb.
        destruct Ha as [-> | ->], Hb as [-> | ->]; reflexivity.
      * assert (a = b).
        { rewrite <- (SF2Prim_Prim2SF a), <- (SF2Prim_Prim2SF b).
          now rewrite E. }
        subst b. now destruct (is_zero a && get_sign a).
    + destruct (Prim2SF a), (Prim2SF b); simpl in C; discriminate.
Qed.

Lemma SFabs_binary_round_aux p e sx mx ex lx :
  SFabs (binary_round_aux p e sx mx ex lx)
  = SFabs (binary_round_aux p e false mx ex lx).
Proof.
  unfold binary_round_aux.
  destruct (shr_fexp p e mx ex lx) as [mrs' e'].
  destruct (shr_fexp p e _ e' loc_Exact) as [mrs'' e''].
  destruct (shr_m mrs''); try reflexivity.
  destruct (e'' <=? e - p)%Z; reflexivity.
Qed.

Lemma SFabs_binary_normalize_opp p e m ez :
  SFabs (binary_normalize p e (- m) ez false)
  = SFabs (binary_normalize p e m ez false).
Proof.
  destruct m as [| q | q]; simpl; try reflexivity; unfold binary_round;
  destruct (shl_align _ _ _) as [mz ez'].
  - apply SFabs_binary_round_aux.
  - symmetry. apply SFabs_binary_round_aux.
Qed.

Lemma SFabs_SFsub_comm p e (x y : spec_float) :
  SFabs (SFsub p e x y) = SFabs (SFsub p e y x).
Proof.
  destruct x as [sx | sx | | sx mx ex], y as [sy | sy | | sy my ey];
    try reflexivity; try (destruct sx, sy; reflexivity).
  unfold SFsub. rewrite (Z.min_comm ey ex).
  set (A := cond_Zopp sx _). set (B := cond_Zopp sy _).
  replace (B - A)%Z with (- (A - B))%Z by lia.
  symmetry. apply SFabs_binary_normalize_opp.
Qed.

Lemma abs_sub_comm (a b : float) :
  JS.Math_abs (a - b) = JS.Math_abs (b - a).
Proof.
  unfold JS.Math_abs.
  rewrite <- (SF2Prim_Prim2SF (abs (a - b))),
          <- (SF2Prim_Prim2SF (abs (b - a))).
  rewrite !abs_spec, !sub_spec. unfold SF64sub. now rewrite SFabs_SFsub_comm.
Qed.

Lemma abs_positive (a : float) :
  is_nan (abs a) = false -> (abs a =? 0) = false -> (0 <? abs a) = true.
Proof.
  rewrite is_nan_spec, FloatAxioms.eqb_spec, ltb_spec, abs_spec.
  destruct (Prim2SF a) as [s | s | | s m e]; simpl;
    try discriminate; try reflexivity.
Qed.

End NumberFacts.

(** ** Drags on the cropper *)

Section GestureProperties.
Import JS Canvas Cropper Gesture.

Lemma last_cons (A : Type) (a d : A) (l : list A) :
  last (a :: l) d = last l a.
Proof.
  revert a d. induction l as [| b rest IH]; intros a d; [reflexivity |].
  change (last (a :: b :: rest) d) with (last (b :: rest) d).
  rewrite IH. symmetry. apply IH.
Qed.

Lemma moved_while_cropping (rect : domrect) (moves : list mouse)
    (st : state) :
  isCropping st = true ->
  isCropping (moved (Some rect) moves st) = true
  /\ cropStart (moved (Some rect) moves st) = cropStart st
  /\ cropEnd (moved (Some rect) moves st) =
     match moves with
     | [] => cropEnd st
     | first :: rest => within rect (last rest first)
     end.
Proof.
  revert st. induction moves as [| e rest IH]; intros st Hst.
  - simpl. auto.
  - unfold moved in *. simpl fold_left.
    assert (Hstep : handleMouseMove (Some rect) e st =
                    mkState true (cropStart st) (within rect e)).
    { unfold handleMouseMove. now rewrite Hst. }
    rewrite Hstep.
    destruct (IH (mkState true (cropStart st) (within rect e)) eq_refl)
      as (Hc & Hs & He).
    repeat split; trivial.
    rewrite He. clear. destruct rest as [| m rest]; [reflexivity |].
    now rewrite last_cons.
Qed.

Lemma drag_ends (rect : domrect) (down : mouse) (moves : list mouse)
    (st : state) :
  cropStart (drag (Some rect) down moves st) = within rect down
  /\ cropEnd (drag (Some rect) down moves st)
     = within rect (last moves down).
Proof.
  unfold drag.
  destruct (moved_while_cropping rect moves
              (handleMouseDown (Some rect) down st) eq_refl)
    as (_ & Hs & He).
  unfold handleMouseUp. cbn [cropStart cropEnd]. split.
  - rewrite Hs. reflexivity.
  - rewrite He. destruct moves as [| first rest]; [reflexivity |].
    now rewrite last_cons.
Qed.

(** X2.  A press, any moves and a release leave the selection spanned by the
    point pressed and the point of the last move (the point pressed if
    there was none), with cropping off; moves after the release change
    nothing; and with the container unmounted the press and the moves
    are ignored. *)
Theorem drag_spans_press_and_last_move
    (rect : domrect) (down : mouse) (moves : list mouse) (st : state) :
  cropStart (drag (Some rect) down moves st) = within rect down
  /\ cropEnd (drag (Some rect) down moves st)
     = within rect (last moves down)
  /\ isCropping (drag (Some rect) down moves st) = false
  /\ (forall container e,
        handleMouseMove container e (drag (Some rect) down moves st)
        = drag (Some rect) down moves st)
  /\ drag None down moves st = handleMouseUp st.
Proof.
  destruct (drag_ends rect down moves st) as [Hs He].
  split; [exact Hs |]. split; [exact He |].
  unfold drag. split; [reflexivity |]. split.
  - intros container e. reflexivity.
  - unfold moved. simpl handleMouseDown.
    assert (Hkeep : forall s, fold_left
                      (fun s e => handleMouseMove None e s) moves s = s).
    { clear. induction moves as [| e rest IH]; intros s; simpl;
        [reflexivity |].
      rewrite <- (IH s) at 2. f_equal.
      unfold handleMouseMove. now destruct (isCropping s). }
    now rewrite Hkeep.
Qed.

(** X1.  Releasing the mouse does not change the selection: the rectangle
    drawn while dragging is the rectangle that Confirm Crop uses after
    the release, because the rectangle never depends on isCropping. *)
Theorem release_keeps_selection (st : state) (cropping : bool) :
  getCropRect (handleMouseUp st) = getCropRect st
  /\ getCropRect (mkState cropping (cropStart st) (cropEnd st))
     = getCropRect st.
Proof.
  rewrite !getCropRect_points. split; reflexivity.
Qed.

(** X3.  The crop rectangle does not depend on the direction of the drag:
    exchanging the point pressed and the point released gives the same
    rectangle, or null in both cases. *)
Theorem selection_independent_of_direction (st : state) :
  getCropRect (reversed st) = getCropRect st.
Proof.
  rewrite !getCropRect_points. unfold reversed, spanned, degenerate. simpl.
  rewrite (Math_min_comm (Point.x (cropEnd st))),
          (Math_min_comm (Point.y (cropEnd st))),
          (abs_sub_comm (Point.x (cropEnd st))),
          (abs_sub_comm (Point.y (cropEnd st))).
  reflexivity.
Qed.

(** X4.  A drag that ends in the column or in the row where it began (in
    particular a click without any move) selects nothing, and
    confirming then hands the uncropped image over. *)
Theorem straight_drag_selects_nothing
    (env : browser) (imgRef : option HTMLImageElement) (imageUrl : string)
    (rect : domrect) (down : mouse) (moves : list mouse) (st : state) :
  let pressed := within rect down in
  let released := within rect (last moves down) in
  (is_finite (Point.x pressed) = true
     /\ Point.x released = Point.x pressed)
  \/ (is_finite (Point.y pressed) = true
     /\ Point.y released = Point.y pressed) ->
  getCropRect (drag (Some rect) down moves st) = None
  /\ handleConfirmCrop env imgRef imageUrl (drag (Some rect) down moves st)
     = mkConfirmed [] (Some (mkOriginal imageUrl "image/png")).
Proof.
  intros pressed released H.
  destruct (drag_ends rect down moves st) as [Hs He].
  assert (Hnone : getCropRect (drag (Some rect) down moves st) = None).
  { rewrite getCropRect_points, Hs, He.
    unfold degenerate, spanned. cbn [width height].
    subst pressed released.
    destruct H as [[Hfin E] | [Hfin E]]; rewrite E, (sub_self _ Hfin).
    - reflexivity.
    - now rewrite orb_true_r. }
  split; [exact Hnone |].
  unfold handleConfirmCrop. rewrite Hnone. now destruct imgRef.
Qed.

(** X5.  A crop rectangle that is returned has a strictly positive width and
    height, unless that dimension is NaN. *)
Theorem selection_has_positive_size (st : state) (r : rect) :
  getCropRect st = Some r ->
  (is_nan (width r) = false -> (0 <? width r) = true)
  /\ (is_nan (height r) = false -> (0 <? height r) = true).
Proof.
  rewrite getCropRect_points.
  destruct (degenerate (spanned (cropStart st) (cropEnd st))) eqn:D;
    [discriminate |].
  intros [= <-]. unfold degenerate in D. apply orb_false_elim in D.
  destruct D as [Dw Dh]. unfold spanned, Math_abs in *. simpl in *.
  split; intros Hnan; now apply abs_positive.
Qed.


End GestureProperties.

Section GestureExamples.
Import JS Canvas Cropper Gesture Demo.

Lemma straight_drag_selects_nothing_witness :
  getCropRect
    (drag (Some (mkDomRect 5 5)) (mkMouse 115 75)
       [mkMouse 60 80; mkMouse 15 75] initial) = None
  /\ handleConfirmCrop demo_browser (Some demo_photo)
       "data:image/jpeg;base64,/9j/4AAQ"
       (drag (Some (mkDomRect 5 5)) (mkMouse 115 75)
          [mkMouse 60 80; mkMouse 15 75] initial)
     = mkConfirmed []
         (Some (mkOriginal "data:image/jpeg;base64,/9j/4AAQ" "image/png")).
Proof.
  apply (straight_drag_selects_nothing demo_browser (Some demo_photo)
           "data:image/jpeg;base64,/9j/4AAQ" (mkDomRect 5 5)
           (mkMouse 115 75) [mkMouse 60 80; mkMouse 15 75] initial).
  right. split; reflexivity.
Defined.

Lemma selection_has_positive_size_witness :
  (0 <? width (mkRect 10 20 100 50)) = true
  /\ (0 <? height (mkRect 10 20 100 50)) = true.
Proof.
  destruct (selection_has_positive_size demo_drag (mkRect 10 20 100 50)
              eq_refl) as [Hw Hh].
  split; [exact (Hw eq_refl) | exact (Hh eq_refl)].
Defined.

End GestureExamples.

(** ** The file reader's promise settles once *)

Section IngestOnce.
Import JS Ingest.

(** X7.  Once the promise of fileToDataUrl has settled, whatever the reader
    dispatches afterwards (a late error after a load, a second load)
    changes neither the outcome nor the image resolved with. *)
Theorem fileToDataUrl_settles_once (file : File)
    (events later : list reader_event) :
  fileToDataUrl file events <> Pending ->
  fileToDataUrl file (events ++ later) = fileToDataUrl file events.
Proof.
  unfold fileToDataUrl. intros Hsettled.
  rewrite fold_left_app. now apply dispatch_settled.
Qed.

(** X8.  While the reader has dispatched neither load nor error (for
    instance after an abort) the promise stays pending: the caller's
    [await] never returns, and no error is reported. *)
Theorem fileToDataUrl_pending_without_load_or_error (file : File)
    (events : list reader_event) :
  fileToDataUrl file events = Pending <->
  Forall (fun ev => ev = unhandled) events.
Proof.
  rewrite fileToDataUrl_first_handled. split.
  - induction events as [| ev rest IH]; intros H; [constructor |].
    destruct ev; simpl in H; try discriminate H.
    constructor; [reflexivity | now apply IH].
  - induction 1 as [| ev rest -> _ IH]; [reflexivity | exact IH].
Qed.

End IngestOnce.

Section IngestOnceExamples.
Import JS Ingest.

Lemma fileToDataUrl_settles_once_witness :
  fileToDataUrl (mkFile "cat.jpg" "image/jpeg")
    ([onload "data:image/jpeg;base64,/9j/4AAQ"]
       ++ [onerror "NotReadableError"])
  = fileToDataUrl (mkFile "cat.jpg" "image/jpeg")
      [onload "data:image/jpeg;base64,/9j/4AAQ"].
Proof.
  apply (fileToDataUrl_settles_once (mkFile "cat.jpg" "image/jpeg")
           [onload "data:image/jpeg;base64,/9j/4AAQ"]
           [onerror "NotReadableError"]).
  discriminate.
Defined.

End IngestOnceExamples.

(** ** How applyTextOverlay fails, and what it draws *)

Section OverlayOutcome.
Import JS Canvas Overlay.

(** X9.  applyTextOverlay rejects in exactly two ways: with 'Failed to load
    image for text overlay.' when the image does not load, before any
    canvas call, and with 'Could not get canvas context' when it loads
    but there is no 2D context, after the canvas was sized; in every
    other case it resolves. *)
Theorem applyTextOverlay_rejections
    (env : browser) (base64Image text : string) (opts : options) :
  (loadImage env base64Image = None <->
     applyTextOverlay env base64Image text opts =
     mkRendered [] (Rejected "Failed to load image for text overlay."))
  /\ ((exists img, loadImage env base64Image = Some img)
      /\ getContext2d env = false <->
      exists calls,
        applyTextOverlay env base64Image text opts =
        mkRendered calls (Rejected "Could not get canvas context"))
  /\ ((exists img, loadImage env base64Image = Some img)
      /\ getContext2d env = true <->
      exists finalImage,
        settled (applyTextOverlay env base64Image text opts)
        = Resolved finalImage).
Proof.
  unfold applyTextOverlay.
  destruct (loadImage env base64Image) as [img |];
    [destruct (getContext2d env); simpl;
       [destruct (place _ _ _ _) as [[[a b] x] y]; simpl |] |];
    (split; [| split]); (split; intros H);
    repeat match goal with
    | G : _ /\ _ |- _ => destruct G
    | G : exists _, _ |- _ => destruct G
    end;
    try discriminate; try reflexivity; eauto.
Qed.

(** X10.  Whatever the position string, a rendering that resolves is the PNG
    encoding of a canvas of the image's own size on which the image was
    drawn first, at the origin, and the text exactly once, last, with
    the font, colour and shadow set in between. *)
Theorem applyTextOverlay_image_then_text
    (env : browser) (base64Image text : string) (opts : options)
    (finalImage : string) :
  settled (applyTextOverlay env base64Image text opts)
    = Resolved finalImage ->
  exists img textAlign textBaseline x y,
    loadImage env base64Image = Some img
    /\ canvas (applyTextOverlay env base64Image text opts)
       = overlay_calls img text opts textAlign textBaseline x y
    /\ finalImage
       = toDataURL env
           (overlay_calls img text opts textAlign textBaseline x y)
           "image/png" None.
Proof.
  unfold applyTextOverlay.
  destruct (loadImage env base64Image) as [img |]; [| discriminate].
  destruct (getContext2d env); simpl; [| discriminate].
  destruct (place _ _ _ _) as [[[a b] x] y]. simpl.
  intros [= <-]. exists img, a, b, x, y. repeat split.
Qed.

End OverlayOutcome.

Section OverlayOutcomeExamples.
Import JS Canvas Overlay Demo.

Lemma applyTextOverlay_image_then_text_witness :
  exists img textAlign textBaseline x y,
    loadImage demo_browser "data:image/png;base64,R0VO" = Some img
    /\ canvas (applyTextOverlay demo_browser "data:image/png;base64,R0VO"
                 "Hi" demo_options)
       = overlay_calls img "Hi" demo_options textAlign textBaseline x y
    /\ "data:image/png;base64,Q1JPUA=="
       = toDataURL demo_browser
           (overlay_calls img "Hi" demo_options textAlign textBaseline x y)
           "image/png" None.
Proof.
  exact (applyTextOverlay_image_then_text demo_browser
           "data:image/png;base64,R0VO" "Hi" demo_options
           "data:image/png;base64,Q1JPUA==" eq_refl).
Defined.

End OverlayOutcomeExamples.

(** ** What editImageWithGemini resolves and rejects with *)

Section ServiceOutcome.
Import JS Gemini.

Lemma isPassedOver_not_image (p : ResponsePart) :
  isPassedOver p = true -> isImagePart p = false.
Proof.
  unfold isPassedOver, isImagePart.
  destruct (rInlineData p) as [blob |]; [| reflexivity].
  destruct (bMimeType blob) as [mime |]; [| reflexivity].
  now destruct (startsWith mime "image/").
Qed.

Lemma firstImage_some (ps : list ResponsePart) (g : GeneratedImageData) :
  firstImage ps = Found g ->
  exists skipped part blob rest,
    ps = skipped ++ part :: rest
    /\ (forall p, In p skipped -> isPassedOver p = true)
    /\ rInlineData part = Some blob
    /\ bMimeType blob = Some (gMimeType g)
    /\ startsWith (gMimeType g) "image/" = true
    /\ g = mkGenerated (bData blob) (gMimeType g).
Proof.
  induction ps as [| p rest IH]; simpl; [discriminate |].
  destruct (rInlineData p) as [blob |] eqn:B.
  - destruct (bMimeType blob) as [mime |] eqn:M; [| discriminate].
    destruct (startsWith mime "image/") eqn:P.
    + intros [= <-]. exists [], p, blob, rest. simpl.
      repeat split; trivial. intros q [].
    + intros H. destruct (IH H) as (sk & part & bl & rs & -> & Hsk & Hrest).
      exists (p :: sk), part, bl, rs. split; [reflexivity |].
      split; [| exact Hrest].
      intros q [<- | Hq]; [| now apply Hsk].
      unfold isPassedOver. now rewrite B, M, P.
  - intros H. destruct (IH H) as (sk & part & bl & rs & -> & Hsk & Hrest).
    exists (p :: sk), part, bl, rs. split; [reflexivity |].
    split; [| exact Hrest].
    intros q [<- | Hq]; [| now apply Hsk].
    unfold isPassedOver. now rewrite B.
Qed.

Lemma firstImage_threw (ps : list ResponsePart) (read : access) :
  firstImage ps = Threw read <->
  read = startsWith_of_mimeType
  /\ exists skipped part blob rest,
       ps = skipped ++ part :: rest
       /\ (forall p, In p skipped -> isPassedOver p = true)
       /\ rInlineData part = Some blob
       /\ bMimeType blob = None.
Proof.
  induction ps as [| p rest IH]; simpl.
  - split; [discriminate |].
    intros [_ (sk & part & bl & rs & E & _)]. now destruct sk.
  - split.
    + destruct (rInlineData p) as [blob |] eqn:B.
      * destruct (bMimeType blob) as [mime |] eqn:M.
        -- destruct (startsWith mime "image/") eqn:P; [discriminate |].
           intros H. apply IH in H.
           destruct H as [-> (sk & part & bl & rs & -> & Hsk & Hrest)].
           split; [reflexivity |].
           exists (p :: sk), part, bl, rs. split; [reflexivity |].
           split; [| exact Hrest].
           intros q [<- | Hq]; [| now apply Hsk].
           unfold isPassedOver. now rewrite B, M, P.
        -- intros [= <-]. split; [reflexivity |].
           exists [], p, blob, rest. simpl. repeat split; trivial.
           intros q [].
      * intros H. apply IH in H.
        destruct H as [-> (sk & part & bl & rs & -> & Hsk & Hrest)].
        split; [reflexivity |].
        exists (p :: sk), part, bl, rs. split; [reflexivity |].
        split; [| exact Hrest].
        intros q [<- | Hq]; [| now apply Hsk].
        unfold isPassedOver. now rewrite B.
    + intros [-> (sk & part & bl & rs & E & Hsk & Hb & Hm)].
      destruct sk as [| q sk]; simpl in E; injection E as <- ->.
      * now rewrite Hb, Hm.
      * assert (Hp : isPassedOver p = true) by (apply Hsk; now left).
        assert (Hrest : firstImage (sk ++ part :: rs)
                        = Threw startsWith_of_mimeType).
        { apply IH. split; [reflexivity |].
          exists sk, part, bl, rs. repeat split; trivial.
          intros q Hq. apply Hsk. now right. }
        unfold isPassedOver in Hp.
        destruct (rInlineData p) as [blob |]; [| exact Hrest].
        destruct (bMimeType blob) as [mime |]; [| discriminate Hp].
        destruct (startsWith mime "image/"); [discriminate Hp | exact Hrest].
Qed.

Lemma firstCandidateParts_inr (response : GenerateContentResponse)
    (ps : list ResponsePart) :
  firstCandidateParts response = inr ps <->
  exists others,
    response =
    mkResponse (Some (mkCandidate (Some (mkContent (Some ps))) :: others)).
Proof.
  unfold firstCandidateParts. destruct response as [[[| [[[[ps' |]] |]] cs] |]];
    simpl; split; try discriminate;
    try (intros [others H]; discriminate H).
  - intros [= ->]. now exists cs.
  - intros [others [= -> _]]. reflexivity.
Qed.

(** The reads that fail on a response, as the function finds them. *)
Lemma failsAt_spec (response : GenerateContentResponse) (read : access) :
  failsAt response read <->
  firstCandidateParts response = inl read
  \/ exists ps, firstCandidateParts response = inr ps
                /\ firstImage ps = Threw read.
Proof.
  split.
  - intros [| | others | others | sk part blob rest others Hsk Hb Hm];
      simpl; auto.
    right. eexists. split; [reflexivity |].
    apply firstImage_threw. split; [reflexivity |].
    exists sk, part, blob, rest. auto.
  - intros [H | (ps & Hps & Hthrew)].
    + unfold firstCandidateParts in H.
      destruct response as [[[| [[[[ps' |]] |]] cs] |]]; simpl in H;
        try discriminate H; injection H as <-; constructor.
    + apply firstCandidateParts_inr in Hps. destruct Hps as [others ->].
      apply firstImage_threw in Hthrew.
      destruct Hthrew as [-> (sk & part & bl & rs & -> & Hsk & Hb & Hm)].
      now apply no_mimeType with (blob := bl).
Qed.

(** X11.  When editImageWithGemini resolves, the image comes from the first
    candidate of the response, from the first part of it whose inline
    data has a MIME type starting with 'image/': text parts and other
    inline data before it are skipped, later parts and later candidates
    are not looked at, and the MIME type resolved with starts with
    'image/'. *)
Theorem editImageWithGemini_resolves_with_first_image
    (svc : service) (originalImage : ImageData) (prompt : string)
    (backgroundImage : option ImageData) (aspectRatio : string)
    (generated : GeneratedImageData) :
  returned (editImageWithGemini svc originalImage prompt backgroundImage
              (Some aspectRatio)) = Resolved generated ->
  startsWith (gMimeType generated) "image/" = true
  /\ exists skipped part blob rest others,
       generateContent svc
         (requestFor originalImage prompt backgroundImage aspectRatio)
       = inr (mkResponse
                (Some (mkCandidate
                         (Some (mkContent (Some (skipped ++ part :: rest))))
                       :: others)))
       /\ (forall p, In p skipped ->
                     isImagePart p = false /\ isPassedOver p = true)
       /\ rInlineData part = Some blob
       /\ bMimeType blob = Some (gMimeType generated)
       /\ generated = mkGenerated (bData blob) (gMimeType generated).
Proof.
  unfold editImageWithGemini.
  destruct (construct svc) as [[m |] |]; try discriminate.
  destruct (generateContent svc _) as [[m |] | response] eqn:G;
    try discriminate.
  simpl.
  destruct (firstCandidateParts response) as [read | first] eqn:C;
    [discriminate |].
  destruct (firstImage first) as [g | |] eqn:F; try discriminate.
  simpl. intros [= <-].
  apply firstCandidateParts_inr in C. destruct C as [others ->].
  destruct (firstImage_some first g F)
    as (sk & part & blob & rest & -> & Hsk & Hb & Hm & Hp & Hg).
  split; [exact Hp |].
  exists sk, part, blob, rest, others. repeat split; trivial.
  - apply isPassedOver_not_image. now apply Hsk.
  - now apply Hsk.
Qed.

(** X12.  Every rejection of editImageWithGemini carries one of these
    messages: the message of an Error thrown by the SDK (when the
    client is constructed, in which case no request is made, or during
    the request), the fixed unknown-error message when the SDK throws
    something that is not an Error, the engine's TypeError message for
    the read that fails on the response (no candidates, no first
    candidate, no content, no parts, or inline data without a MIME type
    before any image part), or the no-image message when the first
    candidate has parts and the loop passes over all of them.  And
    every response on which a read fails is rejected with the message
    for that read. *)
Theorem editImageWithGemini_rejection_messages
    (svc : service) (originalImage : ImageData) (prompt : string)
    (backgroundImage : option ImageData) (aspectRatio : string) :
  let c := editImageWithGemini svc originalImage prompt backgroundImage
             (Some aspectRatio) in
  let req := requestFor originalImage prompt backgroundImage aspectRatio in
  (forall message,
      returned c = Rejected message ->
      (construct svc = Some (ErrorObject message) /\ sent c = None)
      \/ (construct svc = Some NotAnError /\ sent c = None
          /\ message = "An unknown error occurred during image generation.")
      \/ (sent c = Some req
          /\ (generateContent svc req = inl (ErrorObject message)
              \/ (generateContent svc req = inl NotAnError
                  /\ message
                     = "An unknown error occurred during image generation.")
              \/ (exists response read,
                    generateContent svc req = inr response
                    /\ failsAt response read
                    /\ message = typeErrorMessage svc read)
              \/ (exists first others,
                    generateContent svc req
                    = inr (mkResponse
                             (Some (mkCandidate
                                      (Some (mkContent (Some first)))
                                    :: others)))
                    /\ (forall p, In p first -> isPassedOver p = true)
                    /\ message = noImageMessage))))
  /\ (forall response read,
        construct svc = None ->
        generateContent svc req = inr response ->
        failsAt response read ->
        returned c = Rejected (typeErrorMessage svc read)).
Proof.
  intros c req. subst c req. unfold editImageWithGemini. split.
  - intros message.
    destruct (construct svc) as [[m |] |]; simpl.
    + intros [= <-]. left. auto.
    + intros [= <-]. right; left. auto.
    + destruct (generateContent svc _) as [[m |] | response] eqn:G; simpl.
      * intros [= <-]. right; right. auto.
      * intros [= <-]. right; right. auto.
      * destruct (firstCandidateParts response) as [read | first] eqn:C;
          simpl.
        -- intros [= <-]. right; right. split; [reflexivity |].
           right; right; left. exists response, read.
           repeat split. apply failsAt_spec. now left.
        -- destruct (firstImage first) as [g | | read] eqn:F; simpl;
             [discriminate | |].
           ++ intros [= <-]. right; right. split; [reflexivity |].
              right; right; right.
              apply firstCandidateParts_inr in C. destruct C as [others ->].
              exists first, others.
              repeat split. now apply firstImage_none.
           ++ intros [= <-]. right; right. split; [reflexivity |].
              right; right; left. exists response, read.
              repeat split. apply failsAt_spec. right. eauto.
  - intros response read Hnew Hresp Hfails. rewrite Hnew, Hresp.
    apply failsAt_spec in Hfails.
    destruct Hfails as [-> | (ps & -> & ->)]; reflexivity.
Qed.

End ServiceOutcome.

Section ServiceOutcomeExamples.
Import JS Gemini Demo.

Lemma editImageWithGemini_resolves_with_first_image_witness :
  startsWith "image/png" "image/" = true
  /\ exists skipped part blob rest others,
       generateContent demo_service
         (requestFor (mkImageData (Some "/9j/4AAQ") "image/png")
            "Add a dog" None "original")
       = inr (mkResponse
                (Some (mkCandidate
                         (Some (mkContent (Some (skipped ++ part :: rest))))
                       :: others)))
       /\ (forall p, In p skipped ->
                     isImagePart p = false /\ isPassedOver p = true)
       /\ rInlineData part = Some blob
       /\ bMimeType blob = Some "image/png"
       /\ mkGenerated (Some "R0VO") "image/png"
          = mkGenerated (bData blob) "image/png".
Proof.
  exact (editImageWithGemini_resolves_with_first_image demo_service
           (mkImageData (Some "/9j/4AAQ") "image/png") "Add a dog" None
           "original" (mkGenerated (Some "R0VO") "image/png") eq_refl).
Defined.

Lemma editImageWithGemini_rejection_messages_witness :
  (exists first others,
      generateContent demo_wordy
        (requestFor (mkImageData (Some "/9j/4AAQ") "image/png")
           "Add a dog" None "original")
      = inr (mkResponse
               (Some (mkCandidate (Some (mkContent (Some first)))
                      :: others)))
      /\ (forall p, In p first -> isPassedOver p = true))
  /\ returned (editImageWithGemini demo_blocked
                 (mkImageData (Some "/9j/4AAQ") "image/png") "Add a dog"
                 None (Some "original"))
     = Rejected "Cannot read properties of undefined (reading 'parts')".
Proof.
  split.
  - destruct (proj1 (editImageWithGemini_rejection_messages demo_wordy
                       (mkImageData (Some "/9j/4AAQ") "image/png")
                       "Add a dog" None "original")
                noImageMessage eq_refl)
      as [[H _] | [[H _] | [_ [H | [[H _] | [H | H]]]]]];
      try discriminate H.
    + destruct H as (response & read & Hresp & Hfails & Hmsg).
      destruct read; discriminate Hmsg.
    + destruct H as (first & others & Hresp & Hnone & _).
      exists first, others. split; assumption.
  - exact (proj2 (editImageWithGemini_rejection_messages demo_blocked
                    (mkImageData (Some "/9j/4AAQ") "image/png")
                    "Add a dog" None "original")
             _ _ eq_refl eq_refl (no_content [])).
Defined.

End ServiceOutcomeExamples.

(** ** Resetting, downloading and the effect, on the component state *)

Section StateProperties.
Import JS Canvas App.

(** X13.  Start Over puts every cell back to its initial value except the
    font family, the font size and the text colour, which keep what the
    user chose; a new upload clears the same editor cells and, besides
    the fonts, also keeps the background image and the loading flag. *)
Theorem reset_keeps_font_settings
    (file : Ingest.File) (events : list Ingest.reader_event)
    (imageData : OriginalImage) (s : state) :
  reset s =
    setTextColor (textColor s)
      (setFontSize (fontSize s) (setFontFamily (fontFamily s) initial))
  /\ (Ingest.fileToDataUrl file events = Resolved imageData ->
      handleFileChange (Some file) events s =
        setIsLoading (isLoading s)
          (setBackgroundImage (backgroundImage s)
             (setUncroppedImage (Some (url imageData)) (reset s)))).
Proof.
  split; [reflexivity |].
  intros Hread. unfold handleFileChange. rewrite Hread. reflexivity.
Qed.

(** X14.  A file is saved by handleDownload exactly when there is an edited
    image, it loads and a 2D context exists.  The state changes in one
    case only, the error being set when the image does not load; with
    no edited image, or with no 2D context, the click does nothing and
    reports nothing. *)
Theorem handleDownload_outcomes (env : browser) (s : state) :
  (anchor (handleDownload env s) <> None <->
     exists edited img,
       editedImage s = Some edited /\ truthy edited = true
       /\ loadImage env edited = Some img /\ getContext2d env = true)
  /\ ((exists edited,
         editedImage s = Some edited /\ truthy edited = true
         /\ loadImage env edited = None) ->
      after (handleDownload env s)
        = setError (Some "Failed to process image for download.") s
      /\ canvas (handleDownload env s) = [])
  /\ (~ (exists edited,
           editedImage s = Some edited /\ truthy edited = true
           /\ loadImage env edited = None) ->
      after (handleDownload env s) = s).
Proof.
  unfold handleDownload.
  destruct (editedImage s) as [edited |] eqn:E.
  - destruct (truthy edited) eqn:T; simpl.
    + destruct (loadImage env edited) as [img |] eqn:L.
      * destruct (getContext2d env) eqn:C; simpl.
        -- split; [| split].
           ++ split; [intros _; exists edited, img; auto | discriminate].
           ++ intros (e & [= <-] & _ & H). congruence.
           ++ reflexivity.
        -- split; [| split].
           ++ split; [intros H; now contradiction H |].
              intros (e & i & [= <-] & _ & _ & H). discriminate H.
           ++ intros (e & [= <-] & _ & H). congruence.
           ++ reflexivity.
      * split; [| split].
        -- split; [intros H; now contradiction H |].
           intros (e & i & [= <-] & _ & H & _). congruence.
        -- intros _. split; reflexivity.
        -- intros H. exfalso. apply H. exists edited. auto.
    + split; [| split].
      * split; [intros H; now contradiction H |].
        intros (e & i & [= <-] & H & _). congruence.
      * intros (e & [= <-] & H & _). congruence.
      * reflexivity.
  - split; [| split].
    + split; [intros H; now contradiction H |].
      intros (e & i & H & _). discriminate H.
    + intros (e & H & _). discriminate H.
    + reflexivity.
Qed.

(** X15.  The text-overlay effect writes the edited image and the error and
    nothing else, and running it again on its own result changes
    nothing. *)
Theorem applyText_frame_and_idempotence (env : browser) (s : state) :
  applyText env (applyText env s) = applyText env s
  /\ applyText env s =
     setError (error (applyText env s))
       (setEditedImage (editedImage (applyText env s)) s).
Proof.
  destruct s as [unc orig bg ibt ed pr ld er txt ff fs tc tp vis fmt ar].
  unfold applyText, applyText_begin, applyText_resume, render. simpl.
  destruct ibt as [image |]; [| split; reflexivity].
  destruct (truthy image) eqn:T; simpl; rewrite ?T; simpl;
    [| split; reflexivity].
  destruct (truthy (trim txt)) eqn:B; simpl; rewrite ?T, ?B; simpl.
  - destruct (Overlay.settled _) eqn:R; simpl; rewrite ?T, ?B; simpl;
      rewrite ?R; split; reflexivity.
  - split; reflexivity.
Qed.

(** X16.  A background image that is uploaded and then removed leaves the
    editor as it was before the upload, except that the prompt the user
    had typed is gone: it is empty. *)
Theorem background_upload_then_remove
    (file : Ingest.File) (events : list Ingest.reader_event)
    (imageData : OriginalImage) (s : state) :
  backgroundImage s = None ->
  Ingest.fileToDataUrl file events = Resolved imageData ->
  removeBackgroundImage (handleBackgroundFileChange (Some file) events s)
  = setPrompt "" s.
Proof.
  intros Hnone Hread. unfold handleBackgroundFileChange. rewrite Hread.
  unfold removeBackgroundImage. cbn [prompt setPrompt setBackgroundImage].
  rewrite String.eqb_refl.
  destruct s; simpl in *. now subst.
Qed.

End StateProperties.

Section StateExamples.
Import JS Canvas App Demo.

Lemma reset_keeps_font_settings_witness :
  handleFileChange (Some demo_file) demo_read
    (setFontFamily "Impact" demo_captioned)
  = setUncroppedImage (Some "data:image/jpeg;base64,/9j/4AAQ")
      (setFontFamily "Impact" initial).
Proof.
  rewrite (proj2 (reset_keeps_font_settings demo_file demo_read
                    (mkOriginal "data:image/jpeg;base64,/9j/4AAQ"
                       "image/jpeg")
                    (setFontFamily "Impact" demo_captioned)) eq_refl).
  reflexivity.
Defined.

Lemma handleDownload_outcomes_witness :
  after (handleDownload demo_broken demo_captioned)
    = setError (Some "Failed to process image for download.") demo_captioned
  /\ canvas (handleDownload demo_broken demo_captioned) = [].
Proof.
  apply (proj1 (proj2 (handleDownload_outcomes demo_broken demo_captioned))).
  exists "data:image/png;base64,R0VO". repeat split.
Defined.

Lemma background_upload_then_remove_witness :
  removeBackgroundImage
    (handleBackgroundFileChange (Some demo_file) demo_read demo_editing)
  = setPrompt "" demo_editing.
Proof.
  exact (background_upload_then_remove demo_file demo_read
           (mkOriginal "data:image/jpeg;base64,/9j/4AAQ" "image/jpeg")
           demo_editing eq_refl eq_refl).
Defined.

End StateExamples.

(** ** Data URLs and the request payload *)

Section PayloadProperties.
Import JS App DataUrl.

Lemma split_noComma (s : string) :
  noComma s = true -> split "," s = [s].
Proof.
  induction s as [| c rest IH]; simpl; [reflexivity |].
  intros H. apply andb_prop in H. destruct H as [Hc Hrest].
  apply negb_true_iff in Hc. rewrite Hc, (IH Hrest). reflexivity.
Qed.

Lemma split_at_first_comma (before after : string) :
  noComma before = true ->
  split "," (before ++ "," ++ after)%string = before :: split "," after.
Proof.
  induction before as [| c rest IH]; simpl; [reflexivity |].
  intros H. apply andb_prop in H. destruct H as [Hc Hrest].
  apply negb_true_iff in Hc. rewrite Hc. simpl in IH.
  now rewrite (IH Hrest).
Qed.

Lemma append_assoc (a b c : string) :
  (a ++ (b ++ c))%string = ((a ++ b) ++ c)%string.
Proof.
  induction a as [| x rest IH]; simpl; [reflexivity | now rewrite IH].
Qed.

Lemma noComma_app (a b : string) :
  noComma (a ++ b)%string = noComma a && noComma b.
Proof.
  induction a as [| c rest IH]; simpl; [reflexivity |].
  now rewrite IH, andb_assoc.
Qed.

(** X17.  The payload of an image whose URL is
    data:<mimeType>;base64,<base64Data>, the form handleGenerate itself
    builds for a generated image, is that base64Data again, provided
    neither part has a comma; and an image whose URL has no comma at all
    gets an undefined base64Data, with which the call is still made.
    A generated image whose data is undefined gets the URL
    data:<mimeType>;base64,undefined. *)
Theorem payload_round_trip
    (mime body label : string) (s : state) (url' : string) :
  (noComma mime = true -> noComma body = true ->
     payload (mkOriginal (make mime body) label)
     = Gemini.mkImageData (Some body) label)
  /\ imageBeforeText
       (handleGenerate_resume
          (Resolved (Gemini.mkGenerated (Some body) mime)) s)
     = Some (make mime body)
  /\ (noComma url' = true -> truthy (prompt s) = true ->
      originalImage s = Some (mkOriginal url' label) ->
      exists waiting i,
        handleGenerate_begin s = (waiting, Some i)
        /\ Gemini.base64Data (originalImagePayload i) = None)
  /\ imageBeforeText
       (handleGenerate_resume (Resolved (Gemini.mkGenerated None mime)) s)
     = Some (make mime "undefined").
Proof.
  split; [| split; [| split]]; [| | | reflexivity].
  - intros Hm Hd. unfold payload, make. cbn [url mimeType].
    change ("data:" ++ mime ++ ";base64," ++ body)%string
      with ("data:" ++ (mime ++ (";base64" ++ ("," ++ body))))%string.
    rewrite (append_assoc mime).
    change ("data:" ++ ((mime ++ ";base64") ++ ("," ++ body)))%string
      with (("data:" ++ mime ++ ";base64") ++ "," ++ body)%string.
    rewrite split_at_first_comma, (split_noComma _ Hd); [reflexivity |].
    change ("data:" ++ mime ++ ";base64")%string
      with ("data:" ++ (mime ++ ";base64"))%string.
    rewrite noComma_app, noComma_app, Hm. reflexivity.
  - reflexivity.
  - intros Hu Hp Ho. unfold handleGenerate_begin. rewrite Hp, Ho.
    eexists _, _. split; [reflexivity |].
    unfold payload. cbn [originalImagePayload url Gemini.base64Data].
    now rewrite (split_noComma _ Hu).
Qed.

End PayloadProperties.

Section PayloadExamples.
Import JS App DataUrl Demo.

Lemma payload_round_trip_witness :
  payload (mkOriginal (make "image/png" "R0VO") "image/png")
  = Gemini.mkImageData (Some "R0VO") "image/png".
Proof.
  exact (proj1 (payload_round_trip "image/png" "R0VO" "image/png"
                  demo_editing "blob") eq_refl eq_refl).
Defined.

End PayloadExamples.

(** ** Saving the original and the background *)

Section SavingProperties.
Import JS App Saving.

(** X18.  The background image is saved under its own URL as
    background.<ext>, where ext is jpg, png, webp or gif for the four
    types of the table and png for any other type; without a background
    image nothing is saved. *)
Theorem background_download_extension
    (inherited : string -> option string) (s : state) :
  (backgroundImage s = None ->
     handleBackgroundImageDownload inherited s = None)
  /\ (forall image,
        backgroundImage s = Some image ->
        inherited (mimeType image) = None ->
        exists ext,
          handleBackgroundImageDownload inherited s
            = Some (url image, ("background." ++ ext)%string)
          /\ (mimeType image = "image/jpeg" -> ext = "jpg")
          /\ (mimeType image = "image/png" -> ext = "png")
          /\ (mimeType image = "image/webp" -> ext = "webp")
          /\ (mimeType image = "image/gif" -> ext = "gif")
          /\ (~ In (mimeType image)
                  ["image/jpeg"; "image/png"; "image/webp"; "image/gif"] ->
              ext = "png")).
Proof.
  unfold handleBackgroundImageDownload. split.
  - now intros ->.
  - intros image -> Hproto. eexists. split; [reflexivity |].
    unfold extensionFor.
    repeat split; try (intros ->; reflexivity).
    intros Hother. unfold mimeTypeMap. cbn [own].
    repeat match goal with
    | |- context [String.eqb ?lit (mimeType image)] =>
        destruct (String.eqb_spec lit (mimeType image)) as [E | _];
        [exfalso; apply Hother; rewrite <- E; simpl; tauto |]
    end.
    now rewrite Hproto.
Qed.

End SavingProperties.

Section SavingExamples.
Import JS App Saving Demo.

Lemma background_download_extension_witness :
  handleBackgroundImageDownload (fun _ => None)
    (setBackgroundImage
       (Some (mkOriginal "data:image/svg+xml;base64,PHN2Zz4=" "image/svg+xml"))
       demo_editing)
  = Some ("data:image/svg+xml;base64,PHN2Zz4=", "background.png").
Proof.
  destruct (proj2 (background_download_extension (fun _ => None)
                     (setBackgroundImage
                        (Some (mkOriginal "data:image/svg+xml;base64,PHN2Zz4="
                                 "image/svg+xml"))
                        demo_editing))
              (mkOriginal "data:image/svg+xml;base64,PHN2Zz4=" "image/svg+xml")
              eq_refl eq_refl)
    as (ext & Hrun & _ & _ & _ & _ & Hother).
  rewrite Hrun, Hother; [reflexivity |].
  simpl. intros [H | [H | [H | [H | []]]]]; discriminate H.
Defined.

End SavingExamples.

(** ** What holds in every state the application can reach *)

Section SessionInvariants.
Import JS Canvas App Session Reachable.

Ltac case_in H :=
  match type of H with
  | context [match ?t with _ => _ end] => destruct t eqn:?
  end.

Ltac case_goal :=
  match goal with
  | |- context [match ?t with _ => _ end] => destruct t eqn:?
  end.

Ltac open_handlers :=
  cbn [ui inflight];
  cbv beta iota delta
    [choose afterRead afterDecode handleFileChange handleCropComplete
     handleCropCancel handleBackgroundFileChange removeBackgroundImage
     resetEditorState handleDownload_onerror reset handleGenerate_resume
     applyText_resume];
  repeat case_goal; cbn [ui inflight].

(** [generate] either is refused or starts one more call. *)
Lemma generate_cases (x : session) :
  (ui (generate x)
     = setError (Some "Please enter a prompt and upload an image first.")
         (ui x)
   /\ inflight (generate x) = inflight x)
  \/ (exists i,
        ui (generate x)
          = setImageBeforeText None
              (setEditedImage None
                 (setError None (setIsLoading true (ui x))))
        /\ inflight (generate x) = inflight x ++ [i]).
Proof.
  unfold generate, handleGenerate_begin.
  destruct (truthy (prompt (ui x))); [| now left].
  destruct (originalImage (ui x)); [| now left].
  right. eexists. split; reflexivity.
Qed.

Ltac by_generate x :=
  let Hu := fresh "Hu" in
  let Hf := fresh "Hf" in
  try (destruct (generate_cases x) as [[Hu Hf] | (? & Hu & Hf)];
       rewrite ?Hu, ?Hf).

(** An invariant of [step] holds after every run. *)
Lemma run_invariant (P : session -> Prop) (env : browser) :
  (forall x a x', P x -> step env x a = Some x' -> P x') ->
  forall actions x x', P x -> run env x actions = Some x' -> P x'.
Proof.
  intros Hstep. induction actions as [| a rest IH]; intros x x' Hx Hrun.
  - now injection Hrun as <-.
  - simpl in Hrun. destruct (step env x a) as [y |] eqn:Hy;
      [| discriminate Hrun].
    apply (IH y x'); [| exact Hrun]. now apply (Hstep x a y).
Qed.

(** The effect, when it starts, writes [editedImage] only. *)
Lemma afterRender_writes (before now : state) :
  exists d, fst (afterRender before now) = setEditedImage d now.
Proof.
  exists (editedImage (fst (afterRender before now))).
  unfold afterRender, applyText_begin.
  destruct (depsChanged before now);
    [destruct (imageBeforeText now) as [image |];
       [destruct (negb (truthy image));
          [| destruct (truthy (trim (textOverlay now)))] |] |];
    destruct now; reflexivity.
Qed.

(** A step is a handler followed by that write. *)
Lemma step_writes (env : browser) (x : session) (a : action)
    (x' : session) :
  step env x a = Some x' ->
  exists y d,
    handle env a x = Some y
    /\ ui x' = setEditedImage d (ui y)
    /\ inflight x' = inflight y.
Proof.
  intros Hstep.
  destruct (step_next env a x x' Hstep) as (y & Hy & Hui & Hfl & _).
  destruct (afterRender_writes (ui x) (ui y)) as (d & Hd).
  exists y, d. rewrite Hui, Hd, Hfl. auto.
Qed.

Lemma handleConfirmCrop_png (env : browser)
    (imgRef : option HTMLImageElement) (imageUrl : string)
    (st : Cropper.state) (out : OriginalImage) :
  Cropper.onCropComplete (Cropper.handleConfirmCrop env imgRef imageUrl st)
    = Some out ->
  mimeType out = "image/png".
Proof.
  unfold Cropper.handleConfirmCrop.
  repeat case_goal; cbn; intros [= <-]; reflexivity.
Qed.

Lemma step_labelledPng (env : browser) (x : session) (a : action)
    (x' : session) :
  labelledPng x -> step env x a = Some x' -> labelledPng x'.
Proof.
  unfold labelledPng. intros Hx Hstep.
  destruct (step_writes env x a x' Hstep) as (y & d & Hy & -> & _).
  change (originalImage (setEditedImage d (ui y)))
    with (originalImage (ui y)).
  unfold handle in Hy. destruct a;
    repeat case_in Hy; try discriminate Hy; injection Hy as <-;
    by_generate x; open_handlers; cbn; try exact Hx; try discriminate.
  all: intros out [= <-].
  all: match goal with
       | H : Cropper.onCropComplete _ = Some _ |- _ =>
           exact (handleConfirmCrop_png _ _ _ _ _ H)
       end.
Qed.

(** X19.  Whatever the uploaded file was, the original image of the editor
    is labelled 'image/png' in every reachable state: so it is saved as
    original.png, under its unchanged URL, and it is sent to the service
    as 'image/png'. *)
Theorem original_image_is_always_labelled_png
    (env : browser) (inherited : string -> option string)
    (actions : list action) (x : session) (o : OriginalImage) :
  run env start actions = Some x ->
  originalImage (ui x) = Some o ->
  mimeType o = "image/png"
  /\ Saving.handleOriginalImageDownload inherited (ui x)
     = Some (url o, "original.png")
  /\ (forall waiting i,
        handleGenerate_begin (ui x) = (waiting, Some i) ->
        Gemini.mimeType (originalImagePayload i) = "image/png").
Proof.
  intros Hrun Ho.
  assert (Hpng : labelledPng x).
  { apply (run_invariant labelledPng env (step_labelledPng env)
             actions start x); [| exact Hrun].
    intros o' H. discriminate H. }
  pose proof (Hpng o Ho) as Hlabel.
  split; [exact Hlabel |]. split.
  - unfold Saving.handleOriginalImageDownload. rewrite Ho, Hlabel.
    reflexivity.
  - intros waiting i. unfold handleGenerate_begin. rewrite Ho.
    destruct (truthy (prompt (ui x))); [| discriminate].
    intros [= _ <-]. exact Hlabel.
Qed.

Lemma step_idleWhenNothingPending (env : browser) (x : session)
    (a : action) (x' : session) :
  idleWhenNothingPending x -> step env x a = Some x' ->
  idleWhenNothingPending x'.
Proof.
  unfold idleWhenNothingPending. intros Hx Hstep.
  destruct (step_writes env x a x' Hstep) as (y & d & Hy & -> & ->).
  change (isLoading (setEditedImage d (ui y)))
    with (isLoading (ui y)).
  unfold handle in Hy. destruct a;
    repeat case_in Hy; try discriminate Hy; injection Hy as <-;
    by_generate x; open_handlers; cbn; try exact Hx; try reflexivity.
  all: try (intros H; destruct (inflight x); discriminate H).
  all: exfalso.
  all: match goal with
       | H : Gemini.returned (invoke ?svc ?i) = Pending |- _ =>
           exact (editImageWithGemini_settles _ _ _ _ _ H)
       end.
Qed.

(** X20.  The loading flag is never left up: in every reachable state, if no
    call of editImageWithGemini is pending then isLoading is false, so
    the spinner is gone and the Generate button is governed by the
    prompt alone. *)
Theorem loading_flag_down_when_nothing_pending
    (env : browser) (actions : list action) (x : session) :
  run env start actions = Some x ->
  inflight x = [] ->
  isLoading (ui x) = false
  /\ generateDisabled (ui x) = negb (truthy (prompt (ui x))).
Proof.
  intros Hrun Hnone.
  assert (Hidle : isLoading (ui x) = false).
  { apply (run_invariant idleWhenNothingPending env
             (step_idleWhenNothingPending env) actions start x);
      trivial. intros _. reflexivity. }
  split; [exact Hidle |]. unfold generateDisabled. now rewrite Hidle.
Qed.

Lemma prefix_append (p m r : string) :
  String.prefix p m = true -> String.prefix p (m ++ r) = true.
Proof.
  revert m. induction p as [| c p IH]; intros m H;
    [now destruct (m ++ r)%string |].
  destruct m as [| c' m]; simpl in *; [discriminate H |].
  destruct (ascii_dec c c'); [now apply IH | discriminate H].
Qed.

Lemma resolved_mime_is_image (svc : Gemini.service) (i : invocation)
    (g : Gemini.GeneratedImageData) :
  Gemini.returned (invoke svc i) = Resolved g ->
  startsWith (Gemini.gMimeType g) "image/" = true.
Proof.
  unfold invoke, Gemini.editImageWithGemini.
  destruct (Gemini.construct svc) as [[m |] |]; try discriminate.
  destruct (Gemini.generateContent svc _) as [[m |] | response];
    try discriminate.
  simpl.
  destruct (Gemini.firstCandidateParts response) as [read | first];
    [discriminate |].
  destruct (Gemini.firstImage first) as [g' | |] eqn:F; try discriminate.
  simpl. intros [= <-].
  destruct (firstImage_some first g' F)
    as (_ & _ & b & _ & _ & _ & _ & _ & Hp & _).
  exact Hp.
Qed.

Lemma step_pretextIsImageUrl (env : browser) (x : session)
    (a : action) (x' : session) :
  pretextIsImageUrl x -> step env x a = Some x' -> pretextIsImageUrl x'.
Proof.
  unfold pretextIsImageUrl. intros Hx Hstep.
  destruct (step_writes env x a x' Hstep) as (y & d & Hy & -> & _).
  change (imageBeforeText (setEditedImage d (ui y)))
    with (imageBeforeText (ui y)).
  unfold handle in Hy. destruct a;
    repeat case_in Hy; try discriminate Hy; injection Hy as <-;
    by_generate x; open_handlers; cbn; try exact Hx; try discriminate.
  all: intros u [= <-].
  all: match goal with
       | H : Gemini.returned (invoke ?svc ?i) = Resolved ?g |- _ =>
           apply (resolved_mime_is_image svc i g) in H
       end.
  all: unfold startsWith in *.
  all: change (String.prefix "image/"
                 (Gemini.gMimeType value
                    ++ ";base64," ++ templateText (Gemini.gBase64Data value))
               = true).
  all: now apply prefix_append.
Qed.

(** X21.  In every reachable state the pre-text image, when there is one, is
    a URL that starts with 'data:image/'; in particular it is never the
    empty string, so the effect's test of it fails only for null. *)
Theorem pretext_image_is_a_data_image_url
    (env : browser) (actions : list action) (x : session) (u : string) :
  run env start actions = Some x ->
  imageBeforeText (ui x) = Some u ->
  startsWith u "data:image/" = true /\ truthy u = true.
Proof.
  intros Hrun Hu.
  assert (H : startsWith u "data:image/" = true).
  { apply (run_invariant pretextIsImageUrl env
             (step_pretextIsImageUrl env) actions start x); trivial.
    intros u' H'. discriminate H'. }
  split; [exact H |]. destruct u; [discriminate H | reflexivity].
Qed.

(** X22.  Starting from the initial state, any sequence of actions that uses
    neither the Enter key nor Start Over leaves at most one call of
    editImageWithGemini pending, and the loading flag is up whenever
    one is: the disabled Generate button is what keeps a second call
    from starting. *)
Theorem single_request_through_the_button
    (env : browser) (actions : list action) (x : session) :
  forallb viaButton actions = true ->
  run env start actions = Some x ->
  (length (inflight x) <= 1)%nat
  /\ (inflight x <> [] -> isLoading (ui x) = true).
Proof.
  intros Hvia Hrun.
  destruct (button_keeps_single_request env actions start x Hvia
              (or_introl eq_refl) Hrun) as [Hsingle Hlen].
  split; [exact Hlen |].
  intros Hsome. destruct Hsingle as [Hnil | [Hload _]];
    [contradiction | exact Hload].
Qed.

End SessionInvariants.

Section SessionInvariantExamples.
Import JS Canvas App Session Demo.

Lemma single_request_through_the_button_witness :
  (length
     (inflight
        (mkSession
           (fst (handleGenerate_begin demo_editing))
           [mkInvocation
              (payload (mkOriginal "data:image/jpeg;base64,/9j/4AAQ"
                          "image/png"))
              "Add a dog" None "original"] [] [] [])) <= 1)%nat.
Proof.
  refine (proj1 (single_request_through_the_button demo_browser
                  [ChooseFile demo_file demo_read;
                   ConfirmCrop (Some demo_photo) demo_click;
                   TypePrompt "Add a dog";
                   ClickGenerate]
                  (mkSession
                     (fst (handleGenerate_begin demo_editing))
                     [mkInvocation
                        (payload (mkOriginal "data:image/jpeg;base64,/9j/4AAQ"
                                    "image/png"))
                        "Add a dog" None "original"] [] [] [])
                  _ _));
    vm_compute; reflexivity.
Defined.

Lemma original_image_is_always_labelled_png_witness :
  Saving.handleOriginalImageDownload (fun _ => None)
    (handleCropComplete
       (mkOriginal "data:image/jpeg;base64,/9j/4AAQ" "image/png") initial)
  = Some ("data:image/jpeg;base64,/9j/4AAQ", "original.png").
Proof.
  refine (proj1 (proj2 (original_image_is_always_labelled_png demo_browser
                         (fun _ => None)
                         [ChooseFile demo_file demo_read;
                          ConfirmCrop (Some demo_photo) demo_click]
                         (mkSession
                            (handleCropComplete
                               (mkOriginal "data:image/jpeg;base64,/9j/4AAQ"
                                  "image/png") initial) [] [] [] [])
                         (mkOriginal "data:image/jpeg;base64,/9j/4AAQ"
                            "image/png")
                         _ _)));
    vm_compute; reflexivity.
Defined.

Lemma loading_flag_down_when_nothing_pending_witness :
  isLoading
    (handleGenerate_resume (Gemini.returned (invoke demo_wordy
       (mkInvocation (payload (mkOriginal "data:image/jpeg;base64,/9j/4AAQ"
                                 "image/png"))
          "Add a dog" None "original")))
       (fst (handleGenerate_begin demo_editing))) = false.
Proof.
  refine (proj1 (loading_flag_down_when_nothing_pending demo_browser
                  [ChooseFile demo_file demo_read;
                   ConfirmCrop (Some demo_photo) demo_click;
                   TypePrompt "Add a dog";
                   PressEnter;
                   Settle 0 demo_wordy]
                  (mkSession
                     (handleGenerate_resume
                        (Gemini.returned (invoke demo_wordy
                           (mkInvocation
                              (payload
                                 (mkOriginal "data:image/jpeg;base64,/9j/4AAQ"
                                    "image/png"))
                              "Add a dog" None "original")))
                        (fst (handleGenerate_begin demo_editing)))
                     [] [] [] [])
                  _ _));
    vm_compute; reflexivity.
Defined.

Lemma pretext_image_is_a_data_image_url_witness :
  startsWith "data:image/png;base64,R0VO" "data:image/" = true
  /\ truthy "data:image/png;base64,R0VO" = true.
Proof.
  refine (pretext_image_is_a_data_image_url demo_browser
           [ChooseFile demo_file demo_read;
            ConfirmCrop (Some demo_photo) demo_click;
            TypePrompt "Add a dog";
            ClickGenerate;
            Settle 0 demo_service]
           (mkSession
              (setEditedImage (Some "data:image/png;base64,R0VO")
                 (setImageBeforeText (Some "data:image/png;base64,R0VO")
                    demo_editing)) [] [] [] [])
           "data:image/png;base64,R0VO" _ _);
    vm_compute; reflexivity.
Defined.

End SessionInvariantExamples.

(** ** Answers that arrive late, and what a generation sends *)

Section LateAnswers.
Import JS Canvas App Session.

(** X23.  When a pending call resolves, its image becomes the pre-text image
    of whatever state the editor is in by then and the loading flag is
    lowered, without any check that the answer belongs to the current
    original image or that no other call is still pending: the original
    image of the state is left as it is and only that one call leaves
    the pending list. *)
Theorem late_answer_is_applied_to_current_state
    (env : browser) (x : session) (k : nat) (svc : Gemini.service)
    (i : invocation) (g : Gemini.GeneratedImageData) :
  nth_error (inflight x) k = Some i ->
  Gemini.returned (invoke svc i) = Resolved g ->
  exists x',
    step env x (Settle k svc) = Some x'
    /\ imageBeforeText (ui x')
       = Some (DataUrl.make (Gemini.gMimeType g)
                 (templateText (Gemini.gBase64Data g)))
    /\ isLoading (ui x') = false
    /\ originalImage (ui x') = originalImage (ui x)
    /\ prompt (ui x') = prompt (ui x)
    /\ inflight x' = remove_nth k (inflight x).
Proof.
  intros Hk Hg.
  assert (Hy : handle env (Settle k svc) x
               = Some (mkSession
                         (handleGenerate_resume (Resolved g) (ui x))
                         (remove_nth k (inflight x)) (rendering x)
                         (reading x) (saving x)))
    by (unfold handle; now rewrite Hk, Hg).
  destruct (step env x (Settle k svc)) as [x' |] eqn:Hstep;
    [| unfold step in Hstep; rewrite Hy in Hstep;
       destruct (afterRender _ _); discriminate Hstep].
  exists x'. split; [reflexivity |].
  destruct (step_writes env x (Settle k svc) x' Hstep)
    as (y & d & Hy' & -> & ->).
  rewrite Hy in Hy'. injection Hy' as <-. repeat split.
Qed.

(** X24.  A generation that is accepted sends one request built from the
    state of that moment: the payload of the original image, then that
    of the background image if there is one, then the prompt with the
    instruction for the selected aspect ratio. *)
Theorem handleGenerate_sends_the_state
    (svc : Gemini.service) (s : state) (original : OriginalImage) :
  truthy (prompt s) = true ->
  originalImage s = Some original ->
  Gemini.construct svc = None ->
  exists c,
    snd (handleGenerate svc s) = Some c
    /\ Gemini.sent c
       = Some (Gemini.mkRequest "gemini-2.5-flash-image"
                 ([Gemini.inlineData (Gemini.base64Data (payload original))
                     (mimeType original)]
                  ++ match backgroundImage s with
                     | Some bg =>
                         [Gemini.inlineData
                            (Gemini.base64Data (payload bg)) (mimeType bg)]
                     | None => []
                     end
                  ++ [Gemini.text
                        (prompt s
                           ++ Gemini.aspectInstruction (aspectRatio s))])
                 ["IMAGE"]).
Proof.
  intros Hp Ho Hnew. unfold handleGenerate, handleGenerate_begin.
  rewrite Hp, Ho. cbn [snd]. eexists. split; [reflexivity |].
  unfold invoke.
  cbn [originalImagePayload argPrompt backgroundImagePayload argAspectRatio].
  rewrite (editImageWithGemini_sent svc _ _ _ _ Hnew).
  unfold Gemini.requestFor, Gemini.requestParts.
  destruct (backgroundImage s); reflexivity.
Qed.

End LateAnswers.

Section LateAnswerExamples.
Import JS Canvas App Session Demo.

Lemma late_answer_is_applied_to_current_state_witness :
  exists x',
    step demo_browser
      (mkSession initial
         [mkInvocation (payload (mkOriginal "data:image/jpeg;base64,/9j/4AAQ"
                                   "image/png"))
            "Add a dog" None "original"] [] [] [])
      (Settle 0 demo_service) = Some x'
    /\ imageBeforeText (ui x') = Some "data:image/png;base64,R0VO"
    /\ originalImage (ui x') = None.
Proof.
  destruct (late_answer_is_applied_to_current_state demo_browser
              (mkSession initial
                 [mkInvocation
                    (payload (mkOriginal "data:image/jpeg;base64,/9j/4AAQ"
                                "image/png"))
                    "Add a dog" None "original"] [] [] [])
              0 demo_service
              (mkInvocation
                 (payload (mkOriginal "data:image/jpeg;base64,/9j/4AAQ"
                             "image/png"))
                 "Add a dog" None "original")
              (Gemini.mkGenerated (Some "R0VO") "image/png") eq_refl eq_refl)
    as (x' & Hstep & Hibt & _ & Horig & _).
  exists x'. split; [exact Hstep |]. split; [exact Hibt | exact Horig].
Defined.

Lemma handleGenerate_sends_the_state_witness :
  exists c,
    snd (handleGenerate demo_service demo_editing) = Some c
    /\ Gemini.sent c
       = Some (Gemini.mkRequest "gemini-2.5-flash-image"
                 [Gemini.inlineData (Some "/9j/4AAQ") "image/png";
                  Gemini.text
                    ("Add a dog" ++ LF ++ LF
                     ++ "Please preserve the aspect ratio of the first image.")]
                 ["IMAGE"]).
Proof.
  exact (handleGenerate_sends_the_state demo_service demo_editing
           (mkOriginal "data:image/jpeg;base64,/9j/4AAQ" "image/png")
           eq_refl eq_refl eq_refl).
Defined.

End LateAnswerExamples.
